(** * sdc-napi address tools: [ip_iter] and [ip_sub]

    A shallow embedding of [tools/data/ip_iter.c] and [tools/data/ip_sub.c]
    together with the C library routines they call, and the properties of the
    two programs.

    Conventions.
    - A [uint32_t] is a [Z] in [0, 2^32); an [int] is a [Z] in [-2^31, 2^31).
      Every arithmetic result is reduced explicitly with [u32] or [s32].
      Signed overflow, undefined in ISO C, is modelled as the two's-complement
      wrap-around every supported compiler target produces.
    - [struct in_addr] is the four octets of [s_addr] in memory (network)
      order, so that [ntohl]/[htonl] do not depend on the host's endianness.
    - A process is run with a bound on the number of loop tests it may make
      (its fuel); a run that exhausts the bound reports [OutOfFuel] together
      with everything written so far. *)

From Stdlib Require Import ZArith List Sorted String Ascii Bool Lia.
Import ListNotations.

Local Open Scope string_scope.
Local Open Scope Z_scope.

(** * The programs *)

(** ** Machine integers *)

Module Int.

Definition UINT32_MAX : Z := 4294967295.
Definition modulus : Z := 4294967296.
Definition half_modulus : Z := 2147483648.

(** Conversion to [uint32_t]. *)
Definition u32 (x : Z) : Z := x mod modulus.

(** Conversion to [int] (32 bits, two's complement). *)
Definition s32 (x : Z) : Z :=
  let r := x mod modulus in
  if r <? half_modulus then r else r - modulus.

End Int.

(** ** Characters and text *)

Module Text.

Definition nl : string := String (ascii_of_nat 10) EmptyString.

Definition code (c : ascii) : Z := Z.of_nat (nat_of_ascii c).

(** [isdigit] in the C locale. *)
Definition isdigit (c : ascii) : bool := (48 <=? code c) && (code c <=? 57).

(** [isspace] in the C locale: space, \t, \n, \v, \f, \r. *)
Definition isspace (c : ascii) : bool :=
  (code c =? 32) || ((9 <=? code c) && (code c <=? 13)).

Definition digit_val (c : ascii) : Z := code c - 48.

Definition digit_char (d : Z) : ascii := ascii_of_nat (Z.to_nat (48 + d)).

(** What [%u] prints for a value below 1000: no sign, no padding, no
    leading zero. *)
Definition fmt_u (o : Z) : string :=
  if o <? 10 then
    String (digit_char o) EmptyString
  else if o <? 100 then
    String (digit_char (o / 10)) (String (digit_char (o mod 10)) EmptyString)
  else
    String (digit_char (o / 100))
      (String (digit_char ((o / 10) mod 10))
         (String (digit_char (o mod 10)) EmptyString)).

(** A syntactically valid decimal integer: an optional sign followed by one
    or more digits and nothing else. *)
Fixpoint all_digits (s : string) : bool :=
  match s with
  | EmptyString => true
  | String c r => isdigit c && all_digits r
  end.

Definition nonempty (s : string) : bool :=
  match s with EmptyString => false | _ => true end.

Definition is_integer_literal (s : string) : bool :=
  match s with
  | String "+" r | String "-" r => nonempty r && all_digits r
  | _ => nonempty s && all_digits s
  end.

(** Number of newline characters in a text, i.e. of complete lines. *)
Fixpoint count_lines (s : string) : nat :=
  match s with
  | EmptyString => O
  | String c r =>
      if (code c =? 10) then S (count_lines r) else count_lines r
  end.

(** The text made of the given lines, each terminated by a newline. *)
Fixpoint unlines (ls : list string) : string :=
  match ls with
  | [] => EmptyString
  | l :: r => l ++ nl ++ unlines r
  end.

(** The lines of a text: the pieces its newlines terminate, and what
    follows the last newline when that is not empty. *)
Fixpoint lines_from (s : string) (acc : string) : list string :=
  match s with
  | EmptyString => match acc with EmptyString => [] | _ => [acc] end
  | String c r =>
      if (code c =? 10) then acc :: lines_from r EmptyString
      else lines_from r (acc ++ String c EmptyString)
  end.

Definition lines_of (s : string) : list string := lines_from s EmptyString.

(** A line holds no newline of its own. *)
Fixpoint no_newline (s : string) : bool :=
  match s with
  | EmptyString => true
  | String c r => negb (code c =? 10) && no_newline r
  end.

(** Checking a boolean property of octets by enumeration. *)
Definition below (n : nat) : list Z := map Z.of_nat (seq 0 n).

End Text.

(** ** The C library *)

Module Libc.
Import Int Text.

(** [struct in_addr]: the bytes of [s_addr] as they lie in memory. *)
Record in_addr : Type := mk_in_addr { b0 : Z; b1 : Z; b2 : Z; b3 : Z }.

(** Buffer sizes of [<netinet/in.h>], as POSIX fixes them. *)
Definition INET_ADDRSTRLEN : Z := 16.
Definition INET6_ADDRSTRLEN : Z := 46.

(** [ntohl (a.s_addr)]: the host-order value of the four octets. *)
Definition ntohl (a : in_addr) : Z :=
  b0 a * 16777216 + b1 a * 65536 + b2 a * 256 + b3 a.

(** The four octets of a 32-bit value, most significant first. *)
Definition octets_of (v : Z) : in_addr :=
  mk_in_addr (v / 16777216) ((v / 65536) mod 256) ((v / 256) mod 256)
    (v mod 256).

(** [a.s_addr = htonl (x)]; the argument is first converted to
    [uint32_t]. *)
Definition htonl (x : Z) : in_addr := octets_of (u32 x).

(** The dotted-decimal text of an address. *)
Definition dotted (a : in_addr) : string :=
  fmt_u (b0 a) ++ "." ++ fmt_u (b1 a) ++ "." ++ fmt_u (b2 a) ++ "."
    ++ fmt_u (b3 a).

(** [inet_ntop (AF_INET, &a, buf, size)]: the text, or [None] (a NULL
    return, errno ENOSPC) when it does not fit in [size] bytes with its
    terminating NUL. *)
Definition inet_ntop (a : in_addr) (size : Z) : option string :=
  let s := dotted a in
  if Z.of_nat (String.length s) + 1 <=? size then Some s else None.

(** [inet_pton (AF_INET, src, &dst)], as the scanner of the BSD/ISC
    resolver code that illumos, glibc and the BSDs share: [octs] are the
    octets already closed by a dot, [cur] is the octet being read,
    [saw_digit] says whether it has a digit yet and [octets] counts the
    octets started. A second digit after a leading zero, a value above 255,
    a fifth octet, an empty octet or any other character is refused. *)
Fixpoint inet_pton4 (src : string) (octs : list Z) (cur : Z)
    (saw_digit : bool) (octets : Z) : option in_addr :=
  match src with
  | EmptyString =>
      if octets <? 4 then None
      else
        match (octs ++ [cur])%list with
        | [o0; o1; o2; o3] => Some (mk_in_addr o0 o1 o2 o3)
        | _ => None
        end
  | String ch rest =>
      if isdigit ch then
        let new := cur * 10 + digit_val ch in
        if saw_digit && (cur =? 0) then None
        else if new >? 255 then None
        else if negb saw_digit then
          if octets + 1 >? 4 then None
          else inet_pton4 rest octs new true (octets + 1)
        else inet_pton4 rest octs new saw_digit octets
      else if (code ch =? 46) && saw_digit then
        if octets =? 4 then None
        else inet_pton4 rest (octs ++ [cur])%list 0 false octets
      else None
  end.

Definition inet_pton (src : string) : option in_addr :=
  inet_pton4 src [] 0 false 0.

(** [atoi]: skip white space, take an optional sign, then accumulate the
    leading digits; what follows them is ignored and no digit at all gives
    0. The accumulator is an [int]. *)
Fixpoint atoi_digits (s : string) (n : Z) : Z :=
  match s with
  | EmptyString => n
  | String c r =>
      if isdigit c then atoi_digits r (s32 (s32 (n * 10) + digit_val c))
      else n
  end.

Definition atoi_signed (s : string) : Z :=
  match s with
  | String "-" r => s32 (- atoi_digits r 0)
  | String "+" r => atoi_digits r 0
  | _ => atoi_digits s 0
  end.

Fixpoint atoi (s : string) : Z :=
  match s with
  | EmptyString => 0
  | String c r => if isspace c then atoi r else atoi_signed s
  end.

(** Every octet of the address is a byte. *)
Definition wf_addr (a : in_addr) : Prop :=
  (0 <= b0 a <= 255) /\ (0 <= b1 a <= 255) /\ (0 <= b2 a <= 255)
  /\ (0 <= b3 a <= 255).

End Libc.

(** ** Processes *)

Module Proc.
Import Text.

(** How a bounded run ends: with the value returned by [main], or still
    inside a loop. *)
Inductive outcome : Type :=
| Exit (status : Z)
| OutOfFuel.

(** The two output streams of the process. *)
Record streams : Type := mk_streams { stdout : string; stderr : string }.

Definition start : streams := mk_streams EmptyString EmptyString.

(** [puts (s)]: the string and a newline on standard output. *)
Definition puts (s : string) (w : streams) : streams :=
  mk_streams (stdout w ++ s ++ nl) (stderr w).

(** [printf], after its format has been expanded to [s]. *)
Definition printf (s : string) (w : streams) : streams :=
  mk_streams (stdout w ++ s) (stderr w).

(** [fprintf (stderr, ...)], after its format has been expanded to [s]. *)
Definition eprintf (s : string) (w : streams) : streams :=
  mk_streams (stdout w) (stderr w ++ s).

(** The run returned from [main] with a non-zero status. *)
Definition failed (r : outcome * streams) : Prop :=
  exists st, fst r = Exit st /\ st <> 0.

End Proc.

(** ** [ip_iter.c]: iterate IPv4 addresses, inclusive *)

Module IpIter.
Import Int Text Libc Proc.

Definition usage : string := "ip_iter: <start> <end>" ++ nl.
Definition looks_bad (n a : string) : string :=
  "argv[" ++ n ++ "] (" ++ a ++ ") looks bad" ++ nl.
Definition larger : string :=
  "starting address is larger than ending, aborting" ++ nl.
Definition conversion_failed : string := "conversion failed!" ++ nl.

(** [for (cur = first; cur <= last; cur++)] with [uint32_t cur, last]. *)
Fixpoint loop (fuel : nat) (cur last : Z) (w : streams)
    : outcome * streams :=
  match fuel with
  | O => (OutOfFuel, w)
  | S fuel' =>
      if cur <=? last then
        let i := htonl cur in
        match inet_ntop i INET6_ADDRSTRLEN with
        | None => (Exit 1, eprintf conversion_failed w)
        | Some buf => loop fuel' (u32 (cur + 1)) last (puts buf w)
        end
      else (Exit 0, w)
  end.

Definition main (fuel : nat) (argv : list string) : outcome * streams :=
  match argv with
  | [_; a1; a2] =>
      match inet_pton a1 with
      | None => (Exit 1, eprintf (looks_bad "1" a1) start)
      | Some start_addr =>
          match inet_pton a2 with
          | None => (Exit 1, eprintf (looks_bad "2" a2) start)
          | Some end_addr =>
              let first := ntohl start_addr in
              let last := ntohl end_addr in
              if first >? last then (Exit 1, eprintf larger start)
              else loop fuel first last start
          end
      end
  | _ => (Exit 1, eprintf usage start)
  end.

(** *** Vocabulary of the statements *)

(** The guards of [main] that precede the loop. *)
Definition validated (argv : list string) : bool :=
  match argv with
  | [_; a1; a2] =>
      match inet_pton a1, inet_pton a2 with
      | Some s, Some e => negb (ntohl s >? ntohl e)
      | _, _ => false
      end
  | _ => false
  end.

(** The [n] consecutive values from [v] on. *)
Fixpoint upfrom (v : Z) (n : nat) : list Z :=
  match n with
  | O => []
  | S n' => v :: upfrom (v + 1) n'
  end.

(** The line printed for the value [v]. *)
Definition line (v : Z) : string := dotted (octets_of v).

End IpIter.

(** ** [ip_sub.c]: count subnets *)

Module IpSub.
Import Int Text Libc Proc.

Definition usage : string :=
  "ip_sub: <starting ip> <bits> <count" ++ nl ++ ">".
Definition looks_bad (a : string) : string :=
  "argv[1] (" ++ a ++ ") looks bad" ++ nl.
Definition bad_size : string := "bad subnet size, only [8, 32) valid" ++ nl.
Definition no_match : string := "address doesn't match subnet" ++ nl.
Definition conversion_failed : string := "conversion failed!" ++ nl.

(** [1 << (32 - bits)] as an [int]. *)
Definition subnet_size (bits : Z) : Z := s32 (Z.shiftl 1 (32 - bits)).

(** [for (i = 0; i < count; i++, subnet += 1 << (32 - bits))] with
    [int i, count, subnet, bits]. *)
Fixpoint loop (fuel : nat) (i count subnet bits : Z) (w : streams)
    : outcome * streams :=
  match fuel with
  | O => (OutOfFuel, w)
  | S fuel' =>
      if i <? count then
        match inet_ntop (htonl subnet) INET_ADDRSTRLEN with
        | None => (Exit 1, eprintf conversion_failed w)
        | Some buf =>
            match inet_ntop (htonl (s32 (subnet + 1))) INET_ADDRSTRLEN with
            | None => (Exit 1, eprintf conversion_failed w)
            | Some first =>
                match
                  inet_ntop (htonl (s32 (subnet + 2))) INET_ADDRSTRLEN
                with
                | None => (Exit 1, eprintf conversion_failed w)
                | Some last =>
                    loop fuel' (s32 (i + 1)) count
                      (s32 (subnet + subnet_size bits)) bits
                      (printf (buf ++ " " ++ first ++ " " ++ last ++ nl) w)
                end
            end
        end
      else (Exit 0, w)
  end.

Definition main (fuel : nat) (argv : list string) : outcome * streams :=
  match argv with
  | [_; a1; a2; a3] =>
      match inet_pton a1 with
      | None => (Exit 1, eprintf (looks_bad a1) start)
      | Some base =>
          let bits := atoi a2 in
          if (bits <? 8) || (bits >=? 32) then
            (Exit 1, eprintf bad_size start)
          else
            let count := atoi a3 in
            let subnet := s32 (ntohl base) in
            if negb (Z.land subnet (subnet_size bits) =? 0) then
              (Exit 1, eprintf no_match start)
            else loop fuel 0 count subnet bits start
      end
  | _ => (Exit 1, eprintf usage start)
  end.

(** *** Vocabulary of the statements *)

(** The guards of [main] that precede the loop. *)
Definition validated (argv : list string) : bool :=
  match argv with
  | [_; a1; a2; a3] =>
      match inet_pton a1 with
      | Some base =>
          negb ((atoi a2 <? 8) || (atoi a2 >=? 32))
          && (Z.land (s32 (ntohl base)) (subnet_size (atoi a2)) =? 0)
      | None => false
      end
  | _ => false
  end.

(** The [n] values [v], [v + step], [v + 2 * step], ... *)
Fixpoint strides (v step : Z) (n : nat) : list Z :=
  match n with
  | O => []
  | S n' => v :: strides (v + step) step n'
  end.

(** The line printed for the subnet that starts at the 32-bit value of
    [v]. *)
Definition subnet_line (v : Z) : string :=
  dotted (octets_of (u32 v)) ++ " " ++ dotted (octets_of (u32 (v + 1)))
    ++ " " ++ dotted (octets_of (u32 (v + 2))).

End IpSub.

(** ** The command lines *)

Import Int Text Libc Proc.

(** [ip_iter <start> <end>] *)
Definition ip_iter (fuel : nat) (a1 a2 : string) : outcome * streams :=
  IpIter.main fuel ["ip_iter"; a1; a2].

(** [ip_sub <starting ip> <bits> <count>] *)
Definition ip_sub (fuel : nat) (a1 a2 a3 : string) : outcome * streams :=
  IpSub.main fuel ["ip_sub"; a1; a2; a3].

(** Closing a goal on concrete command lines by evaluation. *)
Ltac by_eval :=
  vm_compute; repeat split; try reflexivity; try (intro; discriminate).

(** * Properties *)

(** ** Machine integers *)

Module IntFacts.
Import Int.

Lemma u32_range x : 0 <= u32 x <= UINT32_MAX.
Proof.
  unfold u32, UINT32_MAX, modulus.
  pose proof (Z.mod_pos_bound x 4294967296). lia.
Qed.

Lemma u32_small x : 0 <= x <= UINT32_MAX -> u32 x = x.
Proof.
  unfold u32, UINT32_MAX, modulus. intros H.
  apply Z.mod_small. lia.
Qed.

Lemma s32_range x : - half_modulus <= s32 x < half_modulus.
Proof.
  unfold s32, half_modulus, modulus. cbv zeta.
  pose proof (Z.mod_pos_bound x 4294967296).
  destruct (x mod 4294967296 <? 2147483648) eqn:E;
    [apply Z.ltb_lt in E | apply Z.ltb_ge in E]; lia.
Qed.

Lemma s32_small x : - half_modulus <= x < half_modulus -> s32 x = x.
Proof.
  unfold s32, half_modulus, modulus. cbv zeta. intros H.
  destruct (Z_lt_le_dec x 0) as [Hn | Hp].
  - replace (x mod 4294967296) with (x + 4294967296).
    + destruct (x + 4294967296 <? 2147483648) eqn:E;
        [apply Z.ltb_lt in E | apply Z.ltb_ge in E]; lia.
    + apply Z.mod_unique with (q := -1); lia.
  - rewrite Z.mod_small by lia.
    destruct (x <? 2147483648) eqn:E;
      [apply Z.ltb_lt in E | apply Z.ltb_ge in E]; lia.
Qed.

(** Converting an [int] back to [uint32_t] forgets the detour. *)
Lemma u32_s32 x : u32 (s32 x) = u32 x.
Proof.
  unfold u32, s32, modulus, half_modulus. cbv zeta.
  destruct (x mod 4294967296 <? 2147483648).
  - apply Z.mod_mod. lia.
  - replace (x mod 4294967296 - 4294967296)
      with (x mod 4294967296 + (-1) * 4294967296) by lia.
    rewrite Z.mod_add by lia. apply Z.mod_mod. lia.
Qed.

Lemma u32_add_l x y : u32 (u32 x + y) = u32 (x + y).
Proof. unfold u32, modulus. apply Zplus_mod_idemp_l. Qed.

End IntFacts.

(** ** Text *)

Module TextFacts.
Import Text.

Lemma append_nil_r s : s ++ EmptyString = s.
Proof. induction s as [| c s IH]; simpl; [| rewrite IH]; reflexivity. Qed.

Lemma append_assoc s t u : (s ++ t) ++ u = s ++ t ++ u.
Proof. induction s as [| c s IH]; simpl; [| rewrite IH]; reflexivity. Qed.

Lemma length_append s t :
  String.length (s ++ t) = (String.length s + String.length t)%nat.
Proof. induction s as [| c s IH]; simpl; [| rewrite IH]; reflexivity. Qed.

Lemma count_lines_append s t :
  count_lines (s ++ t) = (count_lines s + count_lines t)%nat.
Proof.
  induction s as [| c s IH]; simpl; [reflexivity |].
  rewrite IH. destruct (code c =? 10); reflexivity.
Qed.

Lemma count_lines_no_newline s : no_newline s = true -> count_lines s = O.
Proof.
  induction s as [| c s IH]; simpl; [reflexivity |].
  destruct (code c =? 10); simpl; [discriminate | exact IH].
Qed.

Lemma no_newline_append s t :
  no_newline (s ++ t) = no_newline s && no_newline t.
Proof.
  induction s as [| c s IH]; simpl; [reflexivity |].
  rewrite IH. apply andb_assoc.
Qed.

Lemma unlines_app l1 l2 : unlines (l1 ++ l2) = unlines l1 ++ unlines l2.
Proof.
  induction l1 as [| l r IH]; simpl; [reflexivity |].
  rewrite IH, !append_assoc. reflexivity.
Qed.

(** A text made of newline-free lines has as many newlines as lines. *)
Lemma count_lines_unlines ls :
  forallb no_newline ls = true -> count_lines (unlines ls) = List.length ls.
Proof.
  induction ls as [| l r IH]; [reflexivity |].
  cbn [unlines forallb List.length]. intros H.
  apply andb_prop in H. destruct H as [Hl Hr].
  rewrite !count_lines_append, (count_lines_no_newline _ Hl), (IH Hr).
  reflexivity.
Qed.

Lemma lines_from_line l : forall acc rest,
  no_newline l = true ->
  lines_from (l ++ nl ++ rest) acc = (acc ++ l) :: lines_from rest EmptyString.
Proof.
  induction l as [| c l IH]; intros acc rest H.
  - simpl. rewrite append_nil_r. reflexivity.
  - simpl in H. cbn [append lines_from].
    destruct (code c =? 10); [discriminate |]. simpl in H.
    rewrite IH by exact H. rewrite append_assoc. reflexivity.
Qed.

(** Reading back the lines of a text written line by line. *)
Lemma lines_of_unlines ls :
  forallb no_newline ls = true -> lines_of (unlines ls) = ls.
Proof.
  unfold lines_of. induction ls as [| l r IH]; [reflexivity |].
  cbn [unlines forallb]. intros H.
  apply andb_prop in H. destruct H as [Hl Hr].
  rewrite lines_from_line by exact Hl. rewrite (IH Hr). reflexivity.
Qed.

Lemma below_complete (P : Z -> bool) (n : nat) :
  forallb P (below n) = true ->
  forall o, 0 <= o < Z.of_nat n -> P o = true.
Proof.
  intros H o Ho. rewrite forallb_forall in H. apply H.
  unfold below. apply in_map_iff. exists (Z.to_nat o). split.
  - lia.
  - apply in_seq. lia.
Qed.

Lemma digit_char_isdigit d : 0 <= d <= 9 -> isdigit (digit_char d) = true.
Proof.
  intros H.
  apply (below_complete (fun d => isdigit (digit_char d)) 10); [| lia].
  vm_compute. reflexivity.
Qed.

Lemma digit_val_char d : 0 <= d <= 9 -> digit_val (digit_char d) = d.
Proof.
  intros H. apply Z.eqb_eq.
  apply (below_complete (fun d => digit_val (digit_char d) =? d) 10);
    [| lia].
  vm_compute. reflexivity.
Qed.

Lemma fmt_u_length o : (String.length (fmt_u o) <= 3)%nat.
Proof.
  unfold fmt_u. destruct (o <? 10); [simpl; lia |].
  destruct (o <? 100); simpl; lia.
Qed.

Lemma fmt_u_no_newline o : 0 <= o <= 255 -> no_newline (fmt_u o) = true.
Proof.
  intros H. apply (below_complete (fun o => no_newline (fmt_u o)) 256);
    [| lia].
  vm_compute. reflexivity.
Qed.

End TextFacts.

(** ** The C library *)

Module LibcFacts.
Import Int Text Libc IntFacts TextFacts.

Lemma octets_of_wf v : 0 <= v <= UINT32_MAX -> wf_addr (octets_of v).
Proof.
  unfold wf_addr, octets_of, UINT32_MAX. simpl. intros H.
  repeat split; Z.div_mod_to_equations; lia.
Qed.

Lemma htonl_wf x : wf_addr (htonl x).
Proof. apply octets_of_wf, u32_range. Qed.

Lemma ntohl_range a : wf_addr a -> 0 <= ntohl a <= UINT32_MAX.
Proof. unfold wf_addr, ntohl, UINT32_MAX. lia. Qed.

Lemma ntohl_octets_of v : ntohl (octets_of v) = v.
Proof.
  unfold ntohl, octets_of. simpl. Z.div_mod_to_equations. lia.
Qed.

Lemma ntohl_htonl x : ntohl (htonl x) = u32 x.
Proof. apply ntohl_octets_of. Qed.

Lemma octets_of_ntohl a : wf_addr a -> octets_of (ntohl a) = a.
Proof.
  destruct a as [o0 o1 o2 o3]. unfold wf_addr, ntohl, octets_of. simpl.
  intros H. f_equal; Z.div_mod_to_equations; lia.
Qed.

(** [htonl] takes its argument as a [uint32_t]: an [int] passed to it is
    converted first. *)
Lemma htonl_s32 x : htonl (s32 x) = htonl x.
Proof. unfold htonl. rewrite u32_s32. reflexivity. Qed.

Lemma dotted_length a : (String.length (dotted a) <= 15)%nat.
Proof.
  unfold dotted. rewrite !length_append. simpl.
  pose proof (fmt_u_length (b0 a)). pose proof (fmt_u_length (b1 a)).
  pose proof (fmt_u_length (b2 a)). pose proof (fmt_u_length (b3 a)).
  lia.
Qed.

(** Formatting cannot fail in a buffer of [INET_ADDRSTRLEN] bytes or
    more. *)
Lemma inet_ntop_fits a size :
  INET_ADDRSTRLEN <= size -> inet_ntop a size = Some (dotted a).
Proof.
  unfold inet_ntop, INET_ADDRSTRLEN. intros H.
  pose proof (dotted_length a) as L.
  destruct (Z.of_nat (String.length (dotted a)) + 1 <=? size) eqn:E;
    [reflexivity | apply Z.leb_gt in E; lia].
Qed.

Lemma dotted_no_newline a : wf_addr a -> no_newline (dotted a) = true.
Proof.
  intros (H0 & H1 & H2 & H3). unfold dotted.
  rewrite !no_newline_append, !fmt_u_no_newline by assumption.
  reflexivity.
Qed.

(** *** The scanner of [inet_pton] *)

Lemma isdigit_val c : isdigit c = true -> 0 <= digit_val c <= 9.
Proof.
  unfold isdigit, digit_val. intros H. apply andb_prop in H.
  destruct H as [H1 H2]. apply Z.leb_le in H1. apply Z.leb_le in H2. lia.
Qed.

(** The scanner only ever builds bytes. *)
Lemma inet_pton4_wf src : forall octs cur saw octets a,
  Forall (fun o => 0 <= o <= 255) octs -> 0 <= cur <= 255 ->
  inet_pton4 src octs cur saw octets = Some a -> wf_addr a.
Proof.
  induction src as [| ch rest IH]; intros octs cur saw octets a Ho Hc; simpl.
  - destruct (octets <? 4); [discriminate |].
    assert (Hall : Forall (fun o => 0 <= o <= 255) (octs ++ [cur])%list)
      by (apply Forall_app; split; [assumption | repeat constructor; lia]).
    destruct (octs ++ [cur])%list as [| o0 [| o1 [| o2 [| o3 [| ? ?]]]]];
      try discriminate.
    intros E. injection E as <-.
    inversion Hall as [| ? ? P0 Hall1]; subst.
    inversion Hall1 as [| ? ? P1 Hall2]; subst.
    inversion Hall2 as [| ? ? P2 Hall3]; subst.
    inversion Hall3 as [| ? ? P3 _]; subst.
    unfold wf_addr. simpl. tauto.
  - destruct (isdigit ch) eqn:D.
    + pose proof (isdigit_val _ D) as Hd.
      destruct (saw && (cur =? 0)); [discriminate |].
      destruct (cur * 10 + digit_val ch >? 255) eqn:G; [discriminate |].
      assert (0 <= cur * 10 + digit_val ch <= 255)
        by (rewrite Z.gtb_ltb in G; apply Z.ltb_ge in G; lia).
      destruct (negb saw).
      * destruct (octets + 1 >? 4); [discriminate |]. apply IH; assumption.
      * apply IH; assumption.
    + destruct ((code ch =? 46) && saw); [| discriminate].
      destruct (octets =? 4); [discriminate |].
      apply IH; [| lia].
      apply Forall_app; split; [assumption | repeat constructor; lia].
Qed.

Lemma inet_pton_wf src a : inet_pton src = Some a -> wf_addr a.
Proof.
  unfold inet_pton. apply inet_pton4_wf; [constructor | lia].
Qed.

Lemma inet_pton_range src a :
  inet_pton src = Some a -> 0 <= ntohl a <= UINT32_MAX.
Proof. intros H. apply ntohl_range, (inet_pton_wf _ _ H). Qed.

Lemma pton_first_digit d rest octs k :
  0 <= d <= 9 -> 0 <= k < 4 ->
  inet_pton4 (String (digit_char d) rest) octs 0 false k
  = inet_pton4 rest octs d true (k + 1).
Proof.
  intros Hd Hk. simpl.
  rewrite digit_char_isdigit, digit_val_char by assumption.
  destruct (d >? 255) eqn:G;
    [rewrite Z.gtb_ltb in G; apply Z.ltb_lt in G; lia |].
  destruct (k + 1 >? 4) eqn:G';
    [rewrite Z.gtb_ltb in G'; apply Z.ltb_lt in G'; lia |].
  reflexivity.
Qed.

Lemma pton_next_digit d rest octs cur k :
  0 <= d <= 9 -> 0 < cur -> cur * 10 + d <= 255 ->
  inet_pton4 (String (digit_char d) rest) octs cur true k
  = inet_pton4 rest octs (cur * 10 + d) true k.
Proof.
  intros Hd Hc Hn. simpl.
  rewrite digit_char_isdigit, digit_val_char by assumption.
  destruct (cur =? 0) eqn:E; [apply Z.eqb_eq in E; lia |].
  destruct (cur * 10 + d >? 255) eqn:G;
    [rewrite Z.gtb_ltb in G; apply Z.ltb_lt in G; lia |].
  reflexivity.
Qed.

(** Scanning what [%u] printed for a byte reads that byte back. *)
Lemma pton_octet o rest octs k :
  0 <= o <= 255 -> 0 <= k < 4 ->
  inet_pton4 (fmt_u o ++ rest) octs 0 false k
  = inet_pton4 rest octs o true (k + 1).
Proof.
  intros Ho Hk. unfold fmt_u.
  destruct (o <? 10) eqn:E1; [apply Z.ltb_lt in E1 | apply Z.ltb_ge in E1].
  - cbn [append]. apply pton_first_digit; lia.
  - destruct (o <? 100) eqn:E2;
      [apply Z.ltb_lt in E2 | apply Z.ltb_ge in E2]; cbn [append].
    + rewrite pton_first_digit, pton_next_digit;
        try (Z.div_mod_to_equations; lia).
      f_equal. Z.div_mod_to_equations; lia.
    + rewrite pton_first_digit, !pton_next_digit;
        try (Z.div_mod_to_equations; lia).
      f_equal. Z.div_mod_to_equations; lia.
Qed.

Lemma pton_dot rest octs cur k :
  0 <= k < 4 ->
  inet_pton4 (String "." rest) octs cur true k
  = inet_pton4 rest (octs ++ [cur])%list 0 false k.
Proof.
  intros Hk. simpl.
  destruct (k =? 4) eqn:E; [apply Z.eqb_eq in E; lia | reflexivity].
Qed.

(** Parsing the text of an address gives the address back. *)
Lemma inet_pton_dotted a : wf_addr a -> inet_pton (dotted a) = Some a.
Proof.
  destruct a as [o0 o1 o2 o3]. intros (H0 & H1 & H2 & H3). simpl in *.
  unfold inet_pton, dotted. cbn [b0 b1 b2 b3].
  rewrite pton_octet by lia. cbn [append]. rewrite pton_dot by lia.
  rewrite pton_octet by lia. cbn [append]. rewrite pton_dot by lia.
  rewrite pton_octet by lia. cbn [append]. rewrite pton_dot by lia.
  rewrite <- (append_nil_r (fmt_u o3)), pton_octet by lia.
  reflexivity.
Qed.

(** The text of a 32-bit value parses back to that value. *)
Lemma pton_ntop_value v :
  0 <= v <= UINT32_MAX ->
  option_map ntohl (inet_pton (dotted (octets_of v))) = Some v.
Proof.
  intros H. rewrite inet_pton_dotted by (apply octets_of_wf, H).
  simpl. rewrite ntohl_octets_of. reflexivity.
Qed.

End LibcFacts.

(** ** The range walker *)

Module IpIterFacts.
Import Int Text Libc Proc IntFacts TextFacts LibcFacts IpIter.

Lemma upfrom_length v n : List.length (upfrom v n) = n.
Proof.
  revert v. induction n as [| n IH]; intros v; simpl;
    [| rewrite IH]; reflexivity.
Qed.

Lemma upfrom_nth v n k :
  (k < n)%nat -> nth_error (upfrom v n) k = Some (v + Z.of_nat k).
Proof.
  revert v k. induction n as [| n IH]; intros v k Hk; [lia |].
  destruct k as [| k]; simpl.
  - f_equal. lia.
  - rewrite IH by lia. f_equal. lia.
Qed.

Lemma upfrom_app v n m :
  upfrom v (n + m) = (upfrom v n ++ upfrom (v + Z.of_nat n) m)%list.
Proof.
  revert v. induction n as [| n IH]; intros v.
  - simpl. rewrite Z.add_0_r. reflexivity.
  - cbn [Nat.add upfrom app]. rewrite IH. do 3 f_equal. lia.
Qed.

Lemma upfrom_bounds v n x : In x (upfrom v n) -> v <= x < v + Z.of_nat n.
Proof.
  revert v. induction n as [| n IH]; intros v; simpl; [tauto |].
  intros [<- | H]; [lia |]. apply IH in H. lia.
Qed.

Lemma upfrom_sorted v n : StronglySorted Z.lt (upfrom v n).
Proof.
  revert v. induction n as [| n IH]; intros v; simpl; constructor.
  - apply IH.
  - apply Forall_forall. intros x Hx. apply upfrom_bounds in Hx. lia.
Qed.

Lemma lines_no_newline v n :
  0 <= v -> v + Z.of_nat n <= UINT32_MAX + 1 ->
  forallb no_newline (map line (upfrom v n)) = true.
Proof.
  intros H0 H1. apply forallb_forall. intros l Hl.
  apply in_map_iff in Hl. destruct Hl as (x & <- & Hx).
  apply upfrom_bounds in Hx.
  apply dotted_no_newline, octets_of_wf. lia.
Qed.

(** The loop never takes its error branch: it can only end with
    [return (0)], and it writes nothing on standard error. *)
Lemma iter_loop_sound fuel : forall cur last w,
  (fst (loop fuel cur last w) = Exit 0
   \/ fst (loop fuel cur last w) = OutOfFuel)
  /\ stderr (snd (loop fuel cur last w)) = stderr w.
Proof.
  induction fuel as [| fuel IH]; intros cur last w; simpl.
  - auto.
  - destruct (cur <=? last); [| auto].
    rewrite inet_ntop_fits by (vm_compute; discriminate).
    destruct (IH (u32 (cur + 1)) last (puts (dotted (htonl cur)) w))
      as [Ho He].
    split; [exact Ho | rewrite He; reflexivity].
Qed.

(** [n] turns of the loop, none of which passes [last] or the largest
    [uint32_t]. *)
Lemma iter_loop_steps n : forall fuel cur last w,
  0 <= cur -> cur + Z.of_nat n <= last + 1 ->
  cur + Z.of_nat n <= UINT32_MAX ->
  loop (n + fuel) cur last w
  = loop fuel (cur + Z.of_nat n) last
      (mk_streams (stdout w ++ unlines (map line (upfrom cur n)))
         (stderr w)).
Proof.
  induction n as [| n IH]; intros fuel cur last w H0 H1 H2.
  - simpl. rewrite append_nil_r, Z.add_0_r. destruct w; reflexivity.
  - cbn [Nat.add loop].
    destruct (cur <=? last) eqn:E; [| apply Z.leb_gt in E; lia].
    rewrite inet_ntop_fits by (vm_compute; discriminate).
    unfold htonl. rewrite !u32_small by lia.
    rewrite IH by lia. cbn [upfrom map unlines puts stdout stderr].
    rewrite !append_assoc. f_equal. lia.
Qed.

Lemma iter_loop_exit fuel cur last w :
  last < cur -> loop (S fuel) cur last w = (Exit 0, w).
Proof.
  intros H. simpl.
  destruct (cur <=? last) eqn:E; [apply Z.leb_le in E; lia | reflexivity].
Qed.

(** With [last] the largest [uint32_t] the test [cur <= last] always
    holds: each unit of fuel buys one more line and the loop never
    exits. *)
Lemma loop_at_max fuel : forall cur w,
  0 <= cur <= UINT32_MAX ->
  fst (loop fuel cur UINT32_MAX w) = OutOfFuel
  /\ count_lines (stdout (snd (loop fuel cur UINT32_MAX w)))
     = (count_lines (stdout w) + fuel)%nat.
Proof.
  induction fuel as [| fuel IH]; intros cur w Hc; simpl.
  - split; [reflexivity | lia].
  - destruct (cur <=? UINT32_MAX) eqn:E; [| apply Z.leb_gt in E; lia].
    rewrite inet_ntop_fits by (vm_compute; discriminate).
    destruct (IH (u32 (cur + 1)) (puts (dotted (htonl cur)) w)
                (u32_range _)) as [Ho Hn].
    split; [exact Ho |]. rewrite Hn. cbn [puts stdout].
    rewrite !count_lines_append.
    rewrite (count_lines_no_newline (dotted (htonl cur)))
      by apply dotted_no_newline, htonl_wf.
    simpl. lia.
Qed.

(** What [main] does when a guard fails. *)
Lemma iter_main_rejects fuel argv :
  validated argv = false ->
  fst (main fuel argv) = Exit 1 /\ stdout (snd (main fuel argv)) = EmptyString
  /\ stderr (snd (main fuel argv)) <> EmptyString.
Proof.
  unfold validated, main.
  destruct argv as [| p [| a1 [| a2 [| ? ?]]]];
    try (intros _; repeat split; discriminate).
  destruct (inet_pton a1) as [s |];
    [| intros _; repeat split; discriminate].
  destruct (inet_pton a2) as [e |];
    [| intros _; repeat split; discriminate].
  destruct (ntohl s >? ntohl e); [| discriminate].
  intros _; repeat split; discriminate.
Qed.

(** What [main] does when they all pass. *)
Lemma iter_main_accepts fuel argv :
  validated argv = true ->
  exists p a1 a2 s e,
    argv = [p; a1; a2] /\ inet_pton a1 = Some s /\ inet_pton a2 = Some e
    /\ ntohl s <= ntohl e
    /\ main fuel argv = loop fuel (ntohl s) (ntohl e) start.
Proof.
  unfold validated, main.
  destruct argv as [| p [| a1 [| a2 [| ? ?]]]]; try discriminate.
  destruct (inet_pton a1) as [s |] eqn:E1; [| discriminate].
  destruct (inet_pton a2) as [e |] eqn:E2; [| discriminate].
  destruct (ntohl s >? ntohl e) eqn:G; [discriminate |]. intros _.
  rewrite Z.gtb_ltb in G. apply Z.ltb_ge in G.
  exists p, a1, a2, s, e. auto 6.
Qed.

(** The walk over a range that ends below the largest address: the loop
    returns after [last - first + 1] lines, one per value, in order. *)
Lemma walk_below_max fuel p a1 a2 s e :
  inet_pton a1 = Some s -> inet_pton a2 = Some e ->
  ntohl s <= ntohl e -> ntohl e < UINT32_MAX ->
  (Z.to_nat (ntohl e - ntohl s + 1) < fuel)%nat ->
  main fuel [p; a1; a2]
  = (Exit 0,
     mk_streams
       (unlines (map line
          (upfrom (ntohl s) (Z.to_nat (ntohl e - ntohl s + 1))))) EmptyString).
Proof.
  intros E1 E2 Hle Hmax Hfuel. unfold main. rewrite E1, E2.
  destruct (ntohl s >? ntohl e) eqn:G;
    [rewrite Z.gtb_ltb in G; apply Z.ltb_lt in G; lia |].
  pose proof (inet_pton_range _ _ E1) as R1.
  set (n := Z.to_nat (ntohl e - ntohl s + 1)) in *.
  replace fuel with (n + S (fuel - n - 1))%nat by lia.
  rewrite iter_loop_steps by lia.
  rewrite iter_loop_exit by lia. reflexivity.
Qed.

End IpIterFacts.

(** ** The subnet enumerator *)

Module IpSubFacts.
Import Int Text Libc Proc IntFacts TextFacts LibcFacts IpSub.

Lemma strides_length v step n : List.length (strides v step n) = n.
Proof.
  revert v. induction n as [| n IH]; intros v; simpl;
    [| rewrite IH]; reflexivity.
Qed.

Lemma strides_nth v step n k :
  (k < n)%nat ->
  nth_error (strides v step n) k = Some (v + Z.of_nat k * step).
Proof.
  revert v k. induction n as [| n IH]; intros v k Hk; [lia |].
  destruct k as [| k]; cbn [strides nth_error].
  - f_equal. lia.
  - rewrite IH by lia. rewrite Nat2Z.inj_succ. f_equal. lia.
Qed.

Lemma subnet_line_no_newline v : no_newline (subnet_line v) = true.
Proof.
  unfold subnet_line.
  rewrite !no_newline_append,
    !dotted_no_newline by apply octets_of_wf, u32_range.
  reflexivity.
Qed.

Lemma subnet_lines_no_newline l :
  forallb no_newline (map subnet_line l) = true.
Proof.
  apply forallb_forall. intros x Hx. apply in_map_iff in Hx.
  destruct Hx as (v & <- & _). apply subnet_line_no_newline.
Qed.

(** [1 << (32 - bits)] for an accepted prefix length. *)
Lemma subnet_size_pow2 bits :
  8 <= bits < 32 -> subnet_size bits = 2 ^ (32 - bits).
Proof.
  intros H. unfold subnet_size. rewrite Z.shiftl_1_l.
  apply s32_small. unfold half_modulus.
  assert (0 < 2 ^ (32 - bits)) by (apply Z.pow_pos_nonneg; lia).
  assert (2 ^ (32 - bits) <= 2 ^ 24) by (apply Z.pow_le_mono_r; lia).
  change (2 ^ 24) with 16777216 in *. lia.
Qed.

Lemma u32_congr_add a b c : u32 a = u32 b -> u32 (a + c) = u32 (b + c).
Proof.
  intros H. rewrite <- (u32_add_l a), <- (u32_add_l b), H. reflexivity.
Qed.

(** The text of one turn of the loop, for a [subnet] that stands for the
    value [v]. *)
Lemma turn_text subnet v :
  u32 subnet = u32 v ->
  dotted (htonl subnet) ++ " " ++ dotted (htonl (s32 (subnet + 1))) ++ " "
    ++ dotted (htonl (s32 (subnet + 2))) ++ nl
  = subnet_line v ++ nl.
Proof.
  intros H. unfold subnet_line. rewrite !htonl_s32. unfold htonl.
  rewrite (u32_congr_add _ _ 1 H), (u32_congr_add _ _ 2 H), H.
  rewrite !append_assoc. reflexivity.
Qed.

(** The loop never takes an error branch: it can only end with
    [return (0)], and it writes nothing on standard error. *)
Lemma sub_loop_sound fuel : forall i count subnet bits w,
  (fst (loop fuel i count subnet bits w) = Exit 0
   \/ fst (loop fuel i count subnet bits w) = OutOfFuel)
  /\ stderr (snd (loop fuel i count subnet bits w)) = stderr w.
Proof.
  induction fuel as [| fuel IH]; intros i count subnet bits w; simpl.
  - auto.
  - destruct (i <? count); [| auto].
    rewrite !inet_ntop_fits by (vm_compute; discriminate).
    match goal with
    | |- context [loop fuel ?i' count ?s' bits ?w'] =>
        destruct (IH i' count s' bits w') as [Ho He]
    end.
    split; [exact Ho | rewrite He; reflexivity].
Qed.

(** [n] turns of the loop. *)
Lemma sub_loop_steps n : forall fuel i count subnet v bits w,
  0 <= i -> ((0 < n)%nat -> i + Z.of_nat n <= count) ->
  count < half_modulus -> u32 subnet = u32 v ->
  exists subnet',
    loop (n + fuel) i count subnet bits w
    = loop fuel (i + Z.of_nat n) count subnet' bits
        (mk_streams
           (stdout w
            ++ unlines (map subnet_line (strides v (subnet_size bits) n)))
           (stderr w)).
Proof.
  induction n as [| n IH]; intros fuel i count subnet v bits w H0 H1 H2 Hv.
  - exists subnet. simpl. rewrite append_nil_r, Z.add_0_r.
    destruct w; reflexivity.
  - cbn [Nat.add loop]. specialize (H1 (Nat.lt_0_succ n)).
    destruct (i <? count) eqn:E; [| apply Z.ltb_ge in E; lia].
    rewrite !inet_ntop_fits by (vm_compute; discriminate).
    rewrite (turn_text _ _ Hv).
    rewrite (s32_small (i + 1)) by (unfold half_modulus in *; lia).
    destruct (IH fuel (i + 1) count (s32 (subnet + subnet_size bits))
                (v + subnet_size bits) bits
                (printf (subnet_line v ++ nl) w)) as [s' Hs'];
      try lia.
    + rewrite u32_s32. apply u32_congr_add, Hv.
    + exists s'. rewrite Hs'. cbn [strides map unlines printf stdout stderr].
      rewrite !append_assoc.
      replace (i + 1 + Z.of_nat n) with (i + Z.of_nat (S n)) by lia.
      reflexivity.
Qed.

Lemma sub_loop_exit fuel i count subnet bits w :
  count <= i -> loop (S fuel) i count subnet bits w = (Exit 0, w).
Proof.
  intros H. simpl.
  destruct (i <? count) eqn:E; [apply Z.ltb_lt in E; lia | reflexivity].
Qed.

Lemma atoi_digits_range s : forall n,
  - half_modulus <= n < half_modulus ->
  - half_modulus <= atoi_digits s n < half_modulus.
Proof.
  induction s as [| c r IH]; intros n Hn; simpl; [exact Hn |].
  destruct (isdigit c); [apply IH, s32_range | exact Hn].
Qed.

(** [atoi] returns an [int]. *)
Lemma atoi_range s : - half_modulus <= atoi s < half_modulus.
Proof.
  assert (Z0 : - half_modulus <= 0 < half_modulus)
    by (unfold half_modulus; lia).
  assert (Hs : forall t, - half_modulus <= atoi_signed t < half_modulus).
  { intros t. unfold atoi_signed.
    destruct t as [| c r]; [apply atoi_digits_range, Z0 |].
    destruct (Ascii.eqb c "-") eqn:Em.
    - apply Ascii.eqb_eq in Em. subst c. apply s32_range.
    - destruct (Ascii.eqb c "+") eqn:Ep.
      + apply Ascii.eqb_eq in Ep. subst c. apply atoi_digits_range, Z0.
      + assert (match c with
                | "-"%char => s32 (- atoi_digits r 0)
                | "+"%char => atoi_digits r 0
                | _ => atoi_digits (String c r) 0
                end = atoi_digits (String c r) 0) as ->.
        { destruct c as [[] [] [] [] [] [] [] []];
            try reflexivity; discriminate. }
        apply atoi_digits_range, Z0. }
  induction s as [| c r IH]; cbn [atoi]; [exact Z0 |].
  destruct (isspace c); [exact IH | apply Hs].
Qed.

(** *** The alignment test *)

Lemma land_pow2 x k :
  0 <= k -> Z.land x (2 ^ k) = if Z.testbit x k then 2 ^ k else 0.
Proof.
  intros Hk. apply Z.bits_inj'. intros n Hn.
  rewrite Z.land_spec, Z.pow2_bits_eqb by exact Hk.
  destruct (Z.eqb_spec k n) as [<- | Hne].
  - destruct (Z.testbit x k) eqn:T.
    + rewrite Z.pow2_bits_eqb, Z.eqb_refl by exact Hk. reflexivity.
    + rewrite Z.bits_0. reflexivity.
  - rewrite andb_false_r. destruct (Z.testbit x k).
    + rewrite Z.pow2_bits_eqb by exact Hk.
      symmetry. apply Z.eqb_neq. exact Hne.
    + rewrite Z.bits_0. reflexivity.
Qed.

Lemma testbit_u32 x k : 0 <= k < 32 -> Z.testbit (u32 x) k = Z.testbit x k.
Proof.
  intros Hk. unfold u32, modulus. change 4294967296 with (2 ^ 32).
  apply Z.mod_pow2_bits_low. lia.
Qed.

(** The low 32 bits of an [int] are those of the value it was converted
    from. *)
Lemma testbit_s32 x k : 0 <= k < 32 -> Z.testbit (s32 x) k = Z.testbit x k.
Proof.
  intros Hk.
  rewrite <- (testbit_u32 (s32 x)), u32_s32 by exact Hk.
  apply testbit_u32, Hk.
Qed.

(** The test of line 45 looks at one bit of the base address, the one at
    position [32 - bits]. *)
Lemma boundary_test base bits :
  8 <= bits < 32 ->
  (Z.land (s32 base) (subnet_size bits) =? 0)
  = negb (Z.testbit base (32 - bits)).
Proof.
  intros Hb. rewrite subnet_size_pow2, land_pow2, testbit_s32 by lia.
  assert (0 < 2 ^ (32 - bits)) by (apply Z.pow_pos_nonneg; lia).
  destruct (Z.testbit base (32 - bits)); cbn [negb].
  - apply Z.eqb_neq. lia.
  - reflexivity.
Qed.

Lemma boundary_land base bits :
  8 <= bits < 32 ->
  (Z.land (s32 base) (subnet_size bits) =? 0)
  = (Z.land base (2 ^ (32 - bits)) =? 0).
Proof.
  intros Hb. rewrite boundary_test, land_pow2 by lia.
  assert (0 < 2 ^ (32 - bits)) by (apply Z.pow_pos_nonneg; lia).
  destruct (Z.testbit base (32 - bits)); cbn [negb]; symmetry.
  - apply Z.eqb_neq. lia.
  - reflexivity.
Qed.

(** *** [main] *)

Lemma bits_guard bits :
  (bits <? 8) || (bits >=? 32) = false <-> 8 <= bits < 32.
Proof.
  rewrite orb_false_iff, Z.ltb_ge, Z.geb_leb, Z.leb_gt. lia.
Qed.

(** What [main] does when a guard fails. *)
Lemma sub_main_rejects fuel argv :
  validated argv = false ->
  fst (main fuel argv) = Exit 1 /\ stdout (snd (main fuel argv)) = EmptyString
  /\ stderr (snd (main fuel argv)) <> EmptyString.
Proof.
  unfold validated, main.
  destruct argv as [| p [| a1 [| a2 [| a3 [| ? ?]]]]];
    try (intros _; repeat split; discriminate).
  destruct (inet_pton a1) as [base |];
    [| intros _; repeat split; discriminate].
  destruct ((atoi a2 <? 8) || (atoi a2 >=? 32)); simpl;
    [intros _; repeat split; discriminate |].
  intros ->. simpl. repeat split; discriminate.
Qed.

(** What [main] does when they all pass. *)
Lemma sub_main_accepts fuel argv :
  validated argv = true ->
  exists p a1 a2 a3 base,
    argv = [p; a1; a2; a3] /\ inet_pton a1 = Some base
    /\ 8 <= atoi a2 < 32
    /\ Z.testbit (ntohl base) (32 - atoi a2) = false
    /\ main fuel argv
       = loop fuel 0 (atoi a3) (s32 (ntohl base)) (atoi a2) start.
Proof.
  unfold validated, main.
  destruct argv as [| p [| a1 [| a2 [| a3 [| ? ?]]]]]; try discriminate.
  destruct (inet_pton a1) as [base |] eqn:E1; [| discriminate].
  destruct ((atoi a2 <? 8) || (atoi a2 >=? 32)) eqn:G; [discriminate |].
  apply bits_guard in G. simpl. intros T. rewrite T. simpl.
  rewrite boundary_test in T by exact G.
  apply negb_true_iff in T.
  exists p, a1, a2, a3, base. auto 6.
Qed.

(** The enumeration: after the guards the loop returns with one line per
    subnet, [atoi a3] of them when that is positive and none otherwise. *)
Lemma enumerate fuel p a1 a2 a3 base :
  inet_pton a1 = Some base -> 8 <= atoi a2 < 32 ->
  Z.testbit (ntohl base) (32 - atoi a2) = false ->
  (Z.to_nat (atoi a3) < fuel)%nat ->
  main fuel [p; a1; a2; a3]
  = (Exit 0,
     mk_streams
       (unlines (map subnet_line
          (strides (ntohl base) (2 ^ (32 - atoi a2))
             (Z.to_nat (atoi a3))))) EmptyString).
Proof.
  intros E1 Hb Ht Hfuel.
  destruct (sub_main_accepts fuel [p; a1; a2; a3])
    as (p' & a1' & a2' & a3' & base' & Ea & E1' & _ & _ & Hm).
  { unfold validated. rewrite E1.
    rewrite (proj2 (bits_guard _) Hb), boundary_test, Ht by exact Hb.
    reflexivity. }
  injection Ea as <- <- <- <-. rewrite E1 in E1'. injection E1' as <-.
  rewrite Hm. clear Hm.
  set (n := Z.to_nat (atoi a3)) in *.
  replace fuel with (n + S (fuel - n - 1))%nat by lia.
  pose proof (atoi_range a3) as Hc.
  destruct (sub_loop_steps n (S (fuel - n - 1)) 0 (atoi a3) (s32 (ntohl base))
              (ntohl base) (atoi a2) start) as [s' Hs'];
    try lia.
  - apply u32_s32.
  - rewrite Hs', sub_loop_exit by lia.
    rewrite subnet_size_pow2 by exact Hb. reflexivity.
Qed.

(** The outcome of the alignment test, in terms of the run. *)
Lemma sub_failed_iff_bit fuel p a1 a2 a3 base :
  inet_pton a1 = Some base -> 8 <= atoi a2 < 32 ->
  (failed (main fuel [p; a1; a2; a3])
   <-> Z.testbit (ntohl base) (32 - atoi a2) = true).
Proof.
  intros E1 Hb. unfold main. rewrite E1. cbv zeta.
  rewrite (proj2 (bits_guard _) Hb), boundary_test by exact Hb.
  rewrite negb_involutive.
  destruct (Z.testbit (ntohl base) (32 - atoi a2)).
  - split; [reflexivity |]. intros _.
    exists 1. split; [reflexivity | discriminate].
  - split; [| discriminate]. intros (st & Hst & Hne). exfalso.
    destruct (sub_loop_sound fuel 0 (atoi a3) (s32 (ntohl base)) (atoi a2)
                start) as [[H | H] _]; rewrite H in Hst; [| discriminate].
    injection Hst as <-. apply Hne. reflexivity.
Qed.

End IpSubFacts.

(** * The two programs *)

Import IntFacts TextFacts LibcFacts.

(** ** Range walker *)

(** X1: a range that ends below 255.255.255.255 is walked as intended:
    [main] returns 0 after one line per address from [start] to [end], in
    ascending order, each line reading back as its address. *)
Theorem ip_iter_below_last_address fuel a1 a2 s e :
  inet_pton a1 = Some s -> inet_pton a2 = Some e ->
  ntohl s <= ntohl e -> ntohl e < UINT32_MAX ->
  (Z.to_nat (ntohl e - ntohl s + 1) < fuel)%nat ->
  exists vs,
    ip_iter fuel a1 a2
    = (Exit 0, mk_streams (unlines (map IpIter.line vs)) EmptyString)
    /\ lines_of (stdout (snd (ip_iter fuel a1 a2))) = map IpIter.line vs
    /\ Z.of_nat (List.length vs) = ntohl e - ntohl s + 1
    /\ StronglySorted Z.lt vs
    /\ hd_error (map IpIter.line vs) = Some (dotted s)
    /\ nth_error (map IpIter.line vs) (List.length vs - 1) = Some (dotted e)
    /\ Forall (fun v => option_map ntohl (inet_pton (IpIter.line v)) = Some v)
         vs.
Proof.
  intros E1 E2 Hle Hmax Hfuel.
  pose proof (inet_pton_range _ _ E1) as R1.
  set (n := Z.to_nat (ntohl e - ntohl s + 1)) in *.
  exists (IpIter.upfrom (ntohl s) n).
  assert (Hrun := IpIterFacts.walk_below_max fuel "ip_iter" a1 a2 s e
                    E1 E2 Hle Hmax Hfuel).
  fold n in Hrun. fold (ip_iter fuel a1 a2) in Hrun.
  split; [exact Hrun |]. rewrite Hrun. cbn [snd stdout].
  split; [apply lines_of_unlines, IpIterFacts.lines_no_newline; lia |].
  rewrite IpIterFacts.upfrom_length.
  split; [lia |]. split; [apply IpIterFacts.upfrom_sorted |].
  split; [| split].
  - destruct n as [| n'] eqn:En; [lia |]. simpl.
    unfold IpIter.line.
    rewrite octets_of_ntohl by (apply (inet_pton_wf _ _ E1)). reflexivity.
  - rewrite nth_error_map, IpIterFacts.upfrom_nth by lia. simpl.
    unfold IpIter.line.
    replace (ntohl s + Z.of_nat (n - 1)) with (ntohl e) by lia.
    rewrite octets_of_ntohl by (apply (inet_pton_wf _ _ E2)). reflexivity.
  - apply Forall_forall. intros v Hv. apply IpIterFacts.upfrom_bounds in Hv.
    apply pton_ntop_value. lia.
Qed.

(** C1, at the inputs where the code departs from it: when [end] is
    255.255.255.255 the walk from any valid [start] never returns, and the
    number of lines it has written grows with the fuel it is given, beyond
    [end - start + 1]. *)
Theorem ip_iter_overruns_at_last_address fuel a1 s :
  inet_pton a1 = Some s ->
  fst (ip_iter fuel a1 "255.255.255.255") = OutOfFuel
  /\ count_lines (stdout (snd (ip_iter fuel a1 "255.255.255.255"))) = fuel.
Proof.
  intros E1. unfold ip_iter, IpIter.main. rewrite E1.
  change (inet_pton "255.255.255.255")
    with (Some (mk_in_addr 255 255 255 255)).
  cbv beta iota zeta.
  change (ntohl (mk_in_addr 255 255 255 255)) with UINT32_MAX.
  pose proof (inet_pton_range _ _ E1) as R1.
  destruct (ntohl s >? UINT32_MAX) eqn:G;
    [rewrite Z.gtb_ltb in G; apply Z.ltb_lt in G; lia |].
  destruct (IpIterFacts.loop_at_max fuel (ntohl s) start R1) as [Ho Hn].
  split; [exact Ho | rewrite Hn; reflexivity].
Qed.

Lemma ip_iter_overruns_at_last_address_witness :
  inet_pton "255.255.255.254" = Some (mk_in_addr 255 255 255 254)
  /\ fst (ip_iter 3 "255.255.255.254" "255.255.255.255") = OutOfFuel
  /\ count_lines (stdout (snd (ip_iter 3 "255.255.255.254" "255.255.255.255")))
     = 3%nat.
Proof.
  split; [reflexivity |].
  apply (ip_iter_overruns_at_last_address 3 "255.255.255.254"
           (mk_in_addr 255 255 255 254)).
  reflexivity.
Defined.

(** C2, where the code departs from it: [ip_iter 255.255.255.255
    255.255.255.255] does not stop after its single line. The counter is a
    [uint32_t], [cur++] wraps to 0, the second line is 0.0.0.0 and no amount
    of fuel reaches the end of the loop. *)
Theorem ip_iter_last_address_never_exits :
  (forall fuel,
     fst (ip_iter fuel "255.255.255.255" "255.255.255.255") = OutOfFuel)
  /\ lines_of (stdout (snd (ip_iter 2 "255.255.255.255" "255.255.255.255")))
     = ["255.255.255.255"; "0.0.0.0"].
Proof.
  split; [| reflexivity].
  intros fuel. unfold ip_iter, IpIter.main.
  change (inet_pton "255.255.255.255")
    with (Some (mk_in_addr 255 255 255 255)).
  cbv beta iota zeta.
  change (ntohl (mk_in_addr 255 255 255 255)) with UINT32_MAX.
  change (UINT32_MAX >? UINT32_MAX) with false. cbv iota.
  apply IpIterFacts.loop_at_max. unfold UINT32_MAX. lia.
Qed.

(** C7: with two parseable addresses, [ip_iter] exits non-zero (and then
    with nothing on standard output) exactly when [start] is greater than
    [end]. *)
Theorem ip_iter_fails_iff_start_gt_end fuel a1 a2 s e :
  inet_pton a1 = Some s -> inet_pton a2 = Some e ->
  (failed (ip_iter fuel a1 a2) <-> ntohl s > ntohl e)
  /\ (failed (ip_iter fuel a1 a2)
      /\ lines_of (stdout (snd (ip_iter fuel a1 a2))) = []
      <-> ntohl s > ntohl e)
  /\ (ntohl s > ntohl e ->
      ip_iter fuel a1 a2 = (Exit 1, mk_streams EmptyString IpIter.larger)).
Proof.
  intros E1 E2. unfold ip_iter, IpIter.main. rewrite E1, E2.
  destruct (ntohl s >? ntohl e) eqn:G; rewrite Z.gtb_ltb in G.
  - apply Z.ltb_lt in G.
    assert (F : failed (Exit 1, eprintf IpIter.larger start))
      by (exists 1; split; [reflexivity | discriminate]).
    split; [| split].
    + split; [lia | intros _; exact F].
    + split; [lia | intros _; split; [exact F | reflexivity]].
    + reflexivity.
  - apply Z.ltb_ge in G.
    assert (N : ~ failed (IpIter.loop fuel (ntohl s) (ntohl e) start)).
    { intros (st & Hst & Hne).
      destruct (IpIterFacts.iter_loop_sound fuel (ntohl s) (ntohl e) start)
        as [[H | H] _]; rewrite H in Hst; [| discriminate].
      injection Hst as <-. apply Hne. reflexivity. }
    split; [| split].
    + split; [intros F; contradiction | lia].
    + split; [intros [F _]; contradiction | lia].
    + lia.
Qed.

Lemma ip_iter_fails_iff_start_gt_end_witness :
  failed (ip_iter 1 "10.0.0.5" "10.0.0.3")
  /\ ip_iter 1 "10.0.0.5" "10.0.0.3"
     = (Exit 1, mk_streams EmptyString IpIter.larger).
Proof.
  pose proof (ip_iter_fails_iff_start_gt_end 1 "10.0.0.5" "10.0.0.3"
                (mk_in_addr 10 0 0 5) (mk_in_addr 10 0 0 3)
                eq_refl eq_refl) as (H1 & _ & H3).
  split; [apply H1 | apply H3]; reflexivity.
Defined.

(** ** Subnet enumerator *)

(** The alignment test as the specification words it, against the bit the
    code looks at. *)
Lemma land_zero_bit base bits :
  8 <= bits < 32 ->
  (Z.land base (2 ^ (32 - bits)) = 0 <-> Z.testbit base (32 - bits) = false).
Proof.
  intros Hb. rewrite IpSubFacts.land_pow2 by lia.
  assert (0 < 2 ^ (32 - bits)) by (apply Z.pow_pos_nonneg; lia).
  destruct (Z.testbit base (32 - bits)); split; intros; try lia;
    try reflexivity; discriminate.
Qed.

(** What a valid command line prints, line by line. *)
Lemma ip_sub_output fuel a1 a2 a3 base :
  inet_pton a1 = Some base -> 8 <= atoi a2 < 32 ->
  Z.land (ntohl base) (2 ^ (32 - atoi a2)) = 0 ->
  (Z.to_nat (atoi a3) < fuel)%nat ->
  fst (ip_sub fuel a1 a2 a3) = Exit 0
  /\ stderr (snd (ip_sub fuel a1 a2 a3)) = EmptyString
  /\ count_lines (stdout (snd (ip_sub fuel a1 a2 a3)))
     = List.length (lines_of (stdout (snd (ip_sub fuel a1 a2 a3))))
  /\ lines_of (stdout (snd (ip_sub fuel a1 a2 a3)))
     = map IpSub.subnet_line
         (IpSub.strides (ntohl base) (2 ^ (32 - atoi a2))
            (Z.to_nat (atoi a3))).
Proof.
  intros E1 Hb Ha Hfuel. apply land_zero_bit in Ha; [| exact Hb].
  unfold ip_sub.
  rewrite (IpSubFacts.enumerate fuel "ip_sub" a1 a2 a3 base E1 Hb Ha Hfuel).
  cbn [fst snd stdout stderr].
  rewrite count_lines_unlines, lines_of_unlines
    by apply IpSubFacts.subnet_lines_no_newline.
  auto.
Qed.

(** C3: a valid [ip_sub] command line prints [max (count, 0)] lines and
    exits 0; line [i] is made of three addresses separated by single spaces,
    those of the 32-bit values of [base + i * 2^(32-bits)], of that plus 1
    and of that plus 2, which are these very numbers whenever they fit in
    32 bits. *)
Theorem ip_sub_prints_count_subnets fuel a1 a2 a3 base :
  inet_pton a1 = Some base -> 8 <= atoi a2 < 32 ->
  Z.land (ntohl base) (2 ^ (32 - atoi a2)) = 0 ->
  (Z.to_nat (atoi a3) < fuel)%nat ->
  fst (ip_sub fuel a1 a2 a3) = Exit 0
  /\ Z.of_nat (count_lines (stdout (snd (ip_sub fuel a1 a2 a3))))
     = Z.max (atoi a3) 0
  /\ Z.of_nat (List.length (lines_of (stdout (snd (ip_sub fuel a1 a2 a3)))))
     = Z.max (atoi a3) 0
  /\ forall i, 0 <= i < atoi a3 ->
       let v := ntohl base + i * 2 ^ (32 - atoi a2) in
       nth_error (lines_of (stdout (snd (ip_sub fuel a1 a2 a3)))) (Z.to_nat i)
       = Some (dotted (octets_of (u32 v)) ++ " "
               ++ dotted (octets_of (u32 (v + 1))) ++ " "
               ++ dotted (octets_of (u32 (v + 2))))
       /\ (v + 2 <= UINT32_MAX ->
           nth_error (lines_of (stdout (snd (ip_sub fuel a1 a2 a3))))
             (Z.to_nat i)
           = Some (dotted (octets_of v) ++ " " ++ dotted (octets_of (v + 1))
                   ++ " " ++ dotted (octets_of (v + 2)))).
Proof.
  intros E1 Hb Ha Hfuel.
  destruct (ip_sub_output fuel a1 a2 a3 base E1 Hb Ha Hfuel)
    as (Hexit & _ & Hcount & Hlines).
  rewrite Hcount, Hlines, length_map, IpSubFacts.strides_length.
  split; [exact Hexit |]. split; [lia |]. split; [lia |].
  intros i Hi v.
  assert (Hline :
    nth_error
      (map IpSub.subnet_line
         (IpSub.strides (ntohl base) (2 ^ (32 - atoi a2))
            (Z.to_nat (atoi a3)))) (Z.to_nat i)
    = Some (IpSub.subnet_line v)).
  { rewrite nth_error_map, IpSubFacts.strides_nth by lia.
    rewrite Z2Nat.id by lia. reflexivity. }
  split; [exact Hline |].
  intros Hfit. rewrite Hline. unfold IpSub.subnet_line.
  pose proof (inet_pton_range _ _ E1) as R.
  assert (0 <= i * 2 ^ (32 - atoi a2))
    by (apply Z.mul_nonneg_nonneg; [lia | apply Z.pow_nonneg; lia]).
  rewrite !u32_small by (unfold v in *; lia). reflexivity.
Qed.

Lemma ip_sub_prints_count_subnets_witness :
  fst (ip_sub 3 "10.0.0.0" "24" "2") = Exit 0
  /\ Z.of_nat (count_lines (stdout (snd (ip_sub 3 "10.0.0.0" "24" "2"))))
     = Z.max (atoi "2") 0.
Proof.
  destruct (ip_sub_prints_count_subnets 3 "10.0.0.0" "24" "2"
              (mk_in_addr 10 0 0 0)) as (H1 & H2 & _).
  - reflexivity.
  - by_eval.
  - reflexivity.
  - vm_compute. lia.
  - split; assumption.
Defined.

(** C4: with a parseable base and [bits] in [8, 32), [ip_sub] fails, with
    the misalignment message and nothing on standard output, exactly when
    the base ANDed with [2^(32-bits)] is not zero, that is when its bit at
    position [32 - bits] is set; the lower bits play no part. *)
Theorem ip_sub_misaligned_iff_boundary_bit fuel a1 a2 a3 base :
  inet_pton a1 = Some base -> 8 <= atoi a2 < 32 ->
  (failed (ip_sub fuel a1 a2 a3)
   <-> Z.land (ntohl base) (2 ^ (32 - atoi a2)) <> 0)
  /\ (ip_sub fuel a1 a2 a3 = (Exit 1, mk_streams EmptyString IpSub.no_match)
      <-> Z.land (ntohl base) (2 ^ (32 - atoi a2)) <> 0)
  /\ (Z.land (ntohl base) (2 ^ (32 - atoi a2)) <> 0
      <-> Z.testbit (ntohl base) (32 - atoi a2) = true).
Proof.
  intros E1 Hb.
  assert (Hbit : Z.land (ntohl base) (2 ^ (32 - atoi a2)) <> 0
                 <-> Z.testbit (ntohl base) (32 - atoi a2) = true).
  { rewrite (land_zero_bit _ _ Hb).
    destruct (Z.testbit (ntohl base) (32 - atoi a2)); split; congruence. }
  unfold ip_sub, IpSub.main. rewrite E1. cbv zeta.
  rewrite (proj2 (IpSubFacts.bits_guard _) Hb).
  rewrite IpSubFacts.boundary_land by exact Hb.
  destruct (Z.eqb_spec (Z.land (ntohl base) (2 ^ (32 - atoi a2))) 0)
    as [Hz | Hnz]; cbn [negb].
  - pose proof (IpSubFacts.sub_loop_sound fuel 0 (atoi a3) (s32 (ntohl base))
                  (atoi a2) start) as [Ho _].
    split; [| split; [| exact Hbit]].
    + split; [| congruence].
      intros (st & Hst & Hne). exfalso.
      destruct Ho as [H | H]; rewrite H in Hst; [| discriminate].
      injection Hst as <-. apply Hne. reflexivity.
    + split; [| congruence].
      intros Hr. rewrite Hr in Ho. simpl in Ho.
      destruct Ho; discriminate.
  - split; [| split; [| exact Hbit]].
    + split; [intros _; exact Hnz |].
      intros _. exists 1. split; [reflexivity | discriminate].
    + split; [intros _; exact Hnz | reflexivity].
Qed.

Lemma ip_sub_misaligned_iff_boundary_bit_witness :
  failed (ip_sub 1 "10.0.1.0" "24" "1")
  <-> Z.land (ntohl (mk_in_addr 10 0 1 0)) (2 ^ (32 - atoi "24")) <> 0.
Proof.
  apply (ip_sub_misaligned_iff_boundary_bit 1 "10.0.1.0" "24" "1"
           (mk_in_addr 10 0 1 0)).
  - reflexivity.
  - by_eval.
Defined.

(** C5 as stated does not hold: no run of [ip_sub 10.0.0.1 24 1] exits
    with a non-zero status. *)
Lemma ip_sub_10_0_0_1_is_not_rejected :
  ~ (exists fuel, failed (ip_sub fuel "10.0.0.1" "24" "1")).
Proof.
  intros (fuel & st & Hst & Hne).
  destruct (IpSubFacts.sub_main_accepts fuel ["ip_sub"; "10.0.0.1"; "24"; "1"]
              eq_refl) as (p & a1 & a2 & a3 & base & _ & _ & _ & _ & Hm).
  unfold ip_sub in Hst. rewrite Hm in Hst.
  destruct (IpSubFacts.sub_loop_sound fuel 0 (atoi a3) (s32 (ntohl base))
              (atoi a2) start) as [[H | H] _];
    rewrite H in Hst; [| discriminate].
  injection Hst as <-. apply Hne. reflexivity.
Qed.

(** C5, amended: [ip_sub 10.0.0.1 24 1] succeeds. Bit 8 of 10.0.0.1 is
    clear, so the boundary-bit test lets the base through; the program
    prints the one line [10.0.0.1 10.0.0.2 10.0.0.3] and exits 0. *)
Theorem ip_sub_10_0_0_1_is_accepted :
  Z.testbit (ntohl (mk_in_addr 10 0 0 1)) (32 - 24) = false
  /\ forall fuel,
       ip_sub (2 + fuel) "10.0.0.1" "24" "1"
       = (Exit 0, mk_streams ("10.0.0.1 10.0.0.2 10.0.0.3" ++ nl) EmptyString).
Proof.
  split; [reflexivity |]. intros fuel.
  unfold ip_sub.
  rewrite (IpSubFacts.enumerate (2 + fuel) "ip_sub" "10.0.0.1" "24" "1"
             (mk_in_addr 10 0 0 1)); try reflexivity.
  - by_eval.
  - change (Z.to_nat (atoi "1")) with 1%nat. lia.
Qed.

(** C6: nothing guards the enumeration against running past
    255.255.255.255. When [base + (count - 1) * 2^(32-bits)] exceeds
    [2^32 - 1] the program still prints all [count] lines and exits 0, every
    address on them is its value modulo [2^32], and the last subnet's base
    is printed as a smaller value than the one computed. *)
Theorem ip_sub_wraps_modulo_2_32 fuel a1 a2 a3 base :
  inet_pton a1 = Some base -> 8 <= atoi a2 < 32 ->
  Z.land (ntohl base) (2 ^ (32 - atoi a2)) = 0 ->
  ntohl base + (atoi a3 - 1) * 2 ^ (32 - atoi a2) > UINT32_MAX ->
  (Z.to_nat (atoi a3) < fuel)%nat ->
  fst (ip_sub fuel a1 a2 a3) = Exit 0
  /\ stderr (snd (ip_sub fuel a1 a2 a3)) = EmptyString
  /\ Z.of_nat (List.length (lines_of (stdout (snd (ip_sub fuel a1 a2 a3)))))
     = atoi a3
  /\ (forall i, 0 <= i < atoi a3 ->
        let v := ntohl base + i * 2 ^ (32 - atoi a2) in
        nth_error (lines_of (stdout (snd (ip_sub fuel a1 a2 a3))))
          (Z.to_nat i)
        = Some (dotted (octets_of (v mod 4294967296)) ++ " "
                ++ dotted (octets_of ((v + 1) mod 4294967296)) ++ " "
                ++ dotted (octets_of ((v + 2) mod 4294967296))))
  /\ (ntohl base + (atoi a3 - 1) * 2 ^ (32 - atoi a2)) mod 4294967296
     < ntohl base + (atoi a3 - 1) * 2 ^ (32 - atoi a2).
Proof.
  intros E1 Hb Ha Hover Hfuel.
  destruct (ip_sub_output fuel a1 a2 a3 base E1 Hb Ha Hfuel)
    as (Hexit & Herr & _ & Hlines).
  pose proof (inet_pton_range _ _ E1) as R.
  assert (Hsz : 0 < 2 ^ (32 - atoi a2)) by (apply Z.pow_pos_nonneg; lia).
  assert (Hcount : 0 < atoi a3).
  { destruct (Z_lt_le_dec 0 (atoi a3)) as [Hp | Hn]; [exact Hp |].
    assert ((atoi a3 - 1) * 2 ^ (32 - atoi a2) <= 0)
      by (apply Z.mul_nonpos_nonneg; lia).
    unfold UINT32_MAX in *. lia. }
  rewrite Hlines, length_map, IpSubFacts.strides_length.
  split; [exact Hexit |]. split; [exact Herr |]. split; [lia |]. split.
  - intros i Hi v.
    rewrite nth_error_map, IpSubFacts.strides_nth by lia.
    rewrite Z2Nat.id by lia. reflexivity.
  - pose proof (Z.mod_pos_bound
                  (ntohl base + (atoi a3 - 1) * 2 ^ (32 - atoi a2))
                  4294967296 eq_refl).
    unfold UINT32_MAX in *. lia.
Qed.

Lemma ip_sub_wraps_modulo_2_32_witness :
  fst (ip_sub 4 "255.255.254.0" "24" "3") = Exit 0
  /\ nth_error (lines_of (stdout (snd (ip_sub 4 "255.255.254.0" "24" "3")))) 2
     = Some "0.0.0.0 0.0.0.1 0.0.0.2".
Proof.
  destruct (ip_sub_wraps_modulo_2_32 4 "255.255.254.0" "24" "3"
              (mk_in_addr 255 255 254 0)) as (H1 & _ & _ & H4 & _).
  - reflexivity.
  - by_eval.
  - reflexivity.
  - reflexivity.
  - vm_compute. lia.
  - split; [exact H1 |]. apply (H4 2). by_eval.
Defined.

(** C8 as stated does not hold: a count that is not an integer is no parse
    failure. [atoi] reads "abc" as 0 and "2x" as 2, and the program exits 0
    in both cases, after two subnet lines in the second. *)
Lemma ip_sub_count_not_integer_exits_0 :
  is_integer_literal "abc" = false
  /\ ip_sub 1 "10.0.0.0" "24" "abc"
     = (Exit 0, mk_streams EmptyString EmptyString)
  /\ is_integer_literal "2x" = false
  /\ ip_sub 3 "10.0.0.0" "24" "2x"
     = (Exit 0,
        mk_streams ("10.0.0.0 10.0.0.1 10.0.0.2" ++ nl
                    ++ "10.0.1.0 10.0.1.1 10.0.1.2" ++ nl) EmptyString).
Proof. repeat split. Qed.

(** C8, amended: of the three arguments only the address can fail to
    parse, and then [ip_sub] exits 1 with nothing on standard output. The
    count goes through [atoi], which accepts any text: whatever the third
    argument is, a command line that passes the other checks runs to
    [return (0)]. *)
Theorem ip_sub_bad_address_exits_1 fuel a1 a2 a3 :
  (inet_pton a1 = None ->
   ip_sub fuel a1 a2 a3 = (Exit 1, mk_streams EmptyString (IpSub.looks_bad a1)))
  /\ (forall base,
        inet_pton a1 = Some base -> 8 <= atoi a2 < 32 ->
        Z.land (ntohl base) (2 ^ (32 - atoi a2)) = 0 ->
        (Z.to_nat (atoi a3) < fuel)%nat ->
        fst (ip_sub fuel a1 a2 a3) = Exit 0).
Proof.
  split.
  - intros E1. unfold ip_sub, IpSub.main. rewrite E1. reflexivity.
  - intros base E1 Hb Ha Hfuel.
    apply (ip_sub_output fuel a1 a2 a3 base E1 Hb Ha Hfuel).
Qed.

Lemma ip_sub_bad_address_exits_1_witness :
  ip_sub 0 "10.0.0" "24" "1"
  = (Exit 1, mk_streams EmptyString (IpSub.looks_bad "10.0.0"))
  /\ fst (ip_sub 1 "10.0.0.0" "24" "abc") = Exit 0.
Proof.
  split.
  - apply (ip_sub_bad_address_exits_1 0 "10.0.0" "24" "1"). reflexivity.
  - apply (proj2 (ip_sub_bad_address_exits_1 1 "10.0.0.0" "24" "abc")
             (mk_in_addr 10 0 0 0)).
    + reflexivity.
    + by_eval.
    + reflexivity.
    + vm_compute. lia.
Defined.

(** C10: the bits argument is read with [atoi], so text that is not an
    integer is not refused as such. "24xyz" counts as 24 and, with an
    aligned base and a positive count, the subnets are printed and the exit
    status is 0; two bits arguments with the same [atoi] value give the
    same run. *)
Theorem ip_sub_bits_read_by_atoi :
  is_integer_literal "24xyz" = false
  /\ atoi "24xyz" = 24
  /\ (forall fuel,
        ip_sub (3 + fuel) "10.0.0.0" "24xyz" "2"
        = (Exit 0,
           mk_streams ("10.0.0.0 10.0.0.1 10.0.0.2" ++ nl
                       ++ "10.0.1.0 10.0.1.1 10.0.1.2" ++ nl) EmptyString))
  /\ (forall fuel a1 a2 a2' a3,
        atoi a2 = atoi a2' -> ip_sub fuel a1 a2 a3 = ip_sub fuel a1 a2' a3).
Proof.
  split; [reflexivity |]. split; [reflexivity |]. split.
  - intros fuel. unfold ip_sub.
    rewrite (IpSubFacts.enumerate (3 + fuel) "ip_sub" "10.0.0.0" "24xyz" "2"
               (mk_in_addr 10 0 0 0)); try reflexivity.
    + by_eval.
    + change (Z.to_nat (atoi "2")) with 2%nat. lia.
  - intros fuel a1 a2 a2' a3 E. unfold ip_sub, IpSub.main.
    rewrite E. reflexivity.
Qed.

Lemma ip_sub_bits_read_by_atoi_witness :
  ip_sub 3 "10.0.0.0" "24xyz" "2" = ip_sub 3 "10.0.0.0" "24" "2".
Proof.
  apply (proj2 (proj2 (proj2 ip_sub_bits_read_by_atoi))). reflexivity.
Defined.

(** ** Both programs *)

(** C9: once the guards of [main] have passed, neither program can take a
    "conversion failed" branch. [inet_ntop] succeeds on every address with
    the buffers the loops give it; a validated run writes nothing on
    standard error and, when it returns, returns 0; a run that exits
    non-zero was stopped by a guard and has written nothing on standard
    output. *)
Theorem no_failure_once_validated fuel argv :
  (forall x,
     inet_ntop (htonl x) INET6_ADDRSTRLEN = Some (dotted (htonl x))
     /\ inet_ntop (htonl x) INET_ADDRSTRLEN = Some (dotted (htonl x)))
  /\ (IpIter.validated argv = true ->
      stderr (snd (IpIter.main fuel argv)) = EmptyString
      /\ forall st, fst (IpIter.main fuel argv) = Exit st -> st = 0)
  /\ (failed (IpIter.main fuel argv) ->
      IpIter.validated argv = false
      /\ stdout (snd (IpIter.main fuel argv)) = EmptyString)
  /\ (IpSub.validated argv = true ->
      stderr (snd (IpSub.main fuel argv)) = EmptyString
      /\ forall st, fst (IpSub.main fuel argv) = Exit st -> st = 0)
  /\ (failed (IpSub.main fuel argv) ->
      IpSub.validated argv = false
      /\ stdout (snd (IpSub.main fuel argv)) = EmptyString).
Proof.
  assert (Iter : IpIter.validated argv = true ->
      stderr (snd (IpIter.main fuel argv)) = EmptyString
      /\ forall st, fst (IpIter.main fuel argv) = Exit st -> st = 0).
  { intros V.
    destruct (IpIterFacts.iter_main_accepts fuel argv V)
      as (p & a1 & a2 & s & e & _ & _ & _ & _ & Hm).
    rewrite Hm.
    destruct (IpIterFacts.iter_loop_sound fuel (ntohl s) (ntohl e) start)
      as [Ho He].
    split; [exact He |]. intros st Hst.
    destruct Ho as [H | H]; rewrite H in Hst;
      [injection Hst as <-; reflexivity | discriminate]. }
  assert (Sub : IpSub.validated argv = true ->
      stderr (snd (IpSub.main fuel argv)) = EmptyString
      /\ forall st, fst (IpSub.main fuel argv) = Exit st -> st = 0).
  { intros V.
    destruct (IpSubFacts.sub_main_accepts fuel argv V)
      as (p & a1 & a2 & a3 & base & _ & _ & _ & _ & Hm).
    rewrite Hm.
    destruct (IpSubFacts.sub_loop_sound fuel 0 (atoi a3) (s32 (ntohl base))
                (atoi a2) start) as [Ho He].
    split; [exact He |]. intros st Hst.
    destruct Ho as [H | H]; rewrite H in Hst;
      [injection Hst as <-; reflexivity | discriminate]. }
  split; [| split; [exact Iter | split; [| split; [exact Sub |]]]].
  - intros x. split; apply inet_ntop_fits; vm_compute; discriminate.
  - intros (st & Hst & Hne).
    destruct (IpIter.validated argv) eqn:V.
    + exfalso. apply Hne, (proj2 (Iter eq_refl) st Hst).
    + split; [reflexivity | apply (IpIterFacts.iter_main_rejects fuel argv V)].
  - intros (st & Hst & Hne).
    destruct (IpSub.validated argv) eqn:V.
    + exfalso. apply Hne, (proj2 (Sub eq_refl) st Hst).
    + split; [reflexivity | apply (IpSubFacts.sub_main_rejects fuel argv V)].
Qed.

Lemma no_failure_once_validated_witness :
  stderr (snd (IpIter.main 4 ["ip_iter"; "10.0.0.1"; "10.0.0.3"])) = EmptyString
  /\ stderr (snd (IpSub.main 3 ["ip_sub"; "10.0.0.0"; "24"; "2"])) = EmptyString
  /\ stdout (snd (IpIter.main 4 ["ip_iter"; "10.0.0.5"; "10.0.0.3"]))
     = EmptyString
  /\ stdout (snd (IpSub.main 3 ["ip_sub"; "10.0.1.0"; "24"; "2"]))
     = EmptyString.
Proof.
  destruct (no_failure_once_validated 4 ["ip_iter"; "10.0.0.1"; "10.0.0.3"])
    as (_ & A & _).
  destruct (no_failure_once_validated 3 ["ip_sub"; "10.0.0.0"; "24"; "2"])
    as (_ & _ & _ & B & _).
  destruct (no_failure_once_validated 4 ["ip_iter"; "10.0.0.5"; "10.0.0.3"])
    as (_ & _ & C & _).
  destruct (no_failure_once_validated 3 ["ip_sub"; "10.0.1.0"; "24"; "2"])
    as (_ & _ & _ & _ & D).
  split; [apply A; reflexivity |].
  split; [apply B; reflexivity |].
  split.
  - apply C. exists 1. split; [reflexivity | discriminate].
  - apply D. exists 1. split; [reflexivity | discriminate].
Defined.

(** * Further properties of the two programs *)

(** ** Range walker *)

Lemma ip_iter_below_last_address_witness :
  exists vs,
    lines_of (stdout (snd (ip_iter 5 "10.0.0.254" "10.0.1.1")))
    = map IpIter.line vs
    /\ Z.of_nat (List.length vs) = 4.
Proof.
  destruct (ip_iter_below_last_address 5 "10.0.0.254" "10.0.1.1"
              (mk_in_addr 10 0 0 254) (mk_in_addr 10 0 1 1))
    as (vs & _ & Hl & Hn & _).
  - reflexivity.
  - reflexivity.
  - by_eval.
  - by_eval.
  - vm_compute. lia.
  - exists vs. split; [exact Hl | exact Hn].
Defined.

(** X2: for a parseable pair with [start <= end], [ip_iter] returns from
    [main] for some amount of fuel exactly when [end] is not
    255.255.255.255. *)
Theorem ip_iter_returns_iff_end_below_max a1 a2 s e :
  inet_pton a1 = Some s -> inet_pton a2 = Some e -> ntohl s <= ntohl e ->
  ((exists fuel st, fst (ip_iter fuel a1 a2) = Exit st)
   <-> ntohl e < UINT32_MAX).
Proof.
  intros E1 E2 Hle.
  pose proof (inet_pton_range _ _ E1) as R1.
  pose proof (inet_pton_range _ _ E2) as R2.
  split.
  - intros (fuel & st & Hst).
    destruct (Z_lt_le_dec (ntohl e) UINT32_MAX) as [Hlt | Hge];
      [exact Hlt | exfalso].
    assert (Hmax : ntohl e = UINT32_MAX) by lia.
    unfold ip_iter, IpIter.main in Hst. rewrite E1, E2 in Hst.
    cbv zeta in Hst. rewrite Hmax in Hst.
    destruct (ntohl s >? UINT32_MAX) eqn:G;
      [rewrite Z.gtb_ltb in G; apply Z.ltb_lt in G; lia |].
    destruct (IpIterFacts.loop_at_max fuel (ntohl s) start R1) as [Ho _].
    rewrite Ho in Hst. discriminate.
  - intros Hlt.
    exists (S (Z.to_nat (ntohl e - ntohl s + 1))), 0. unfold ip_iter.
    rewrite (IpIterFacts.walk_below_max _ "ip_iter" a1 a2 s e E1 E2 Hle Hlt)
      by lia.
    reflexivity.
Qed.

Lemma ip_iter_returns_iff_end_below_max_witness :
  (exists fuel st, fst (ip_iter fuel "10.0.0.1" "10.0.0.3") = Exit st)
  <-> ntohl (mk_in_addr 10 0 0 3) < UINT32_MAX.
Proof.
  apply (ip_iter_returns_iff_end_below_max "10.0.0.1" "10.0.0.3"
           (mk_in_addr 10 0 0 1) (mk_in_addr 10 0 0 3)).
  - reflexivity.
  - reflexivity.
  - by_eval.
Defined.

(** X3: when both arguments denote the same address, other than
    255.255.255.255, [ip_iter] prints that address once, in its canonical
    text, and exits 0, however the two arguments are spelled. *)
Theorem ip_iter_single_address fuel a1 a2 s :
  inet_pton a1 = Some s -> inet_pton a2 = Some s ->
  ntohl s < UINT32_MAX -> (1 < fuel)%nat ->
  ip_iter fuel a1 a2 = (Exit 0, mk_streams (dotted s ++ nl) EmptyString)
  /\ inet_pton (dotted s) = Some s.
Proof.
  intros E1 E2 Hlt Hfuel. split.
  - unfold ip_iter.
    rewrite (IpIterFacts.walk_below_max fuel "ip_iter" a1 a2 s s E1 E2)
      by (try lia; replace (ntohl s - ntohl s + 1) with 1 by lia;
          simpl; lia).
    replace (ntohl s - ntohl s + 1) with 1 by lia.
    change (Z.to_nat 1) with 1%nat. cbn [IpIter.upfrom map unlines].
    unfold IpIter.line.
    rewrite octets_of_ntohl by apply (inet_pton_wf _ _ E1).
    rewrite append_nil_r. reflexivity.
  - apply inet_pton_dotted, (inet_pton_wf _ _ E1).
Qed.

Lemma ip_iter_single_address_witness :
  ip_iter 2 "10.0.0.7" "10.0.0.7"
  = (Exit 0, mk_streams (dotted (mk_in_addr 10 0 0 7) ++ nl) EmptyString).
Proof.
  apply (ip_iter_single_address 2 "10.0.0.7" "10.0.0.7"
           (mk_in_addr 10 0 0 7)).
  - reflexivity.
  - reflexivity.
  - by_eval.
  - lia.
Defined.

(** X4: walking a range is walking its two halves one after the other.
    For [start <= mid], [next = mid + 1 <= end] and [end] below
    255.255.255.255, the output of [ip_iter start end] is the output of
    [ip_iter start mid] followed by that of [ip_iter next end]. *)
Theorem ip_iter_splits_at fuel a1 a2 a3 a4 s m m' e :
  inet_pton a1 = Some s -> inet_pton a2 = Some m ->
  inet_pton a3 = Some m' -> inet_pton a4 = Some e ->
  ntohl s <= ntohl m -> ntohl m' = ntohl m + 1 -> ntohl m' <= ntohl e ->
  ntohl e < UINT32_MAX ->
  (Z.to_nat (ntohl e - ntohl s + 1) < fuel)%nat ->
  fst (ip_iter fuel a1 a4) = Exit 0
  /\ stdout (snd (ip_iter fuel a1 a4))
     = stdout (snd (ip_iter fuel a1 a2)) ++ stdout (snd (ip_iter fuel a3 a4)).
Proof.
  intros E1 E2 E3 E4 Hsm Hnext Hme Hmax Hfuel. unfold ip_iter.
  pose proof (inet_pton_range _ _ E1) as R1.
  rewrite (IpIterFacts.walk_below_max fuel "ip_iter" a1 a4 s e E1 E4)
    by lia.
  rewrite (IpIterFacts.walk_below_max fuel "ip_iter" a1 a2 s m E1 E2)
    by lia.
  rewrite (IpIterFacts.walk_below_max fuel "ip_iter" a3 a4 m' e E3 E4)
    by lia.
  cbn [fst snd stdout]. split; [reflexivity |].
  rewrite <- unlines_app, <- map_app.
  replace (Z.to_nat (ntohl e - ntohl s + 1))
    with (Z.to_nat (ntohl m - ntohl s + 1)
          + Z.to_nat (ntohl e - ntohl m' + 1))%nat by lia.
  rewrite IpIterFacts.upfrom_app.
  replace (ntohl s + Z.of_nat (Z.to_nat (ntohl m - ntohl s + 1)))
    with (ntohl m') by lia.
  reflexivity.
Qed.

Lemma ip_iter_splits_at_witness :
  stdout (snd (ip_iter 6 "10.0.0.1" "10.0.0.4"))
  = stdout (snd (ip_iter 6 "10.0.0.1" "10.0.0.2"))
    ++ stdout (snd (ip_iter 6 "10.0.0.3" "10.0.0.4")).
Proof.
  apply (ip_iter_splits_at 6 "10.0.0.1" "10.0.0.2" "10.0.0.3" "10.0.0.4"
           (mk_in_addr 10 0 0 1) (mk_in_addr 10 0 0 2)
           (mk_in_addr 10 0 0 3) (mk_in_addr 10 0 0 4));
    try reflexivity; try by_eval.
  vm_compute. lia.
Defined.

(** X5: with two arguments, [ip_iter] exits non-zero exactly when one of
    them is not an address or [start] is greater than [end]; nothing is then
    on standard output, and the first argument is checked first, so that
    when it is bad the message names [argv[1]] whatever the second is. *)
Theorem ip_iter_failure_causes fuel a1 a2 :
  (failed (ip_iter fuel a1 a2)
   <-> inet_pton a1 = None \/ inet_pton a2 = None
       \/ exists s e, inet_pton a1 = Some s /\ inet_pton a2 = Some e
                      /\ ntohl s > ntohl e)
  /\ (failed (ip_iter fuel a1 a2) ->
      stdout (snd (ip_iter fuel a1 a2)) = EmptyString)
  /\ (inet_pton a1 = None ->
      stderr (snd (ip_iter fuel a1 a2)) = IpIter.looks_bad "1" a1)
  /\ (inet_pton a1 <> None -> inet_pton a2 = None ->
      stderr (snd (ip_iter fuel a1 a2)) = IpIter.looks_bad "2" a2).
Proof.
  assert (F : forall w, failed (Exit 1, w))
    by (intros w; exists 1; split; [reflexivity | discriminate]).
  unfold ip_iter, IpIter.main.
  destruct (inet_pton a1) as [s |] eqn:E1.
  - destruct (inet_pton a2) as [e |] eqn:E2.
    + cbv zeta. destruct (ntohl s >? ntohl e) eqn:G; rewrite Z.gtb_ltb in G.
      * apply Z.ltb_lt in G.
        repeat split; try discriminate; try reflexivity; try (intros; apply F).
        intros _. right. right. exists s, e. repeat split. lia.
      * apply Z.ltb_ge in G.
        assert (N : ~ failed (IpIter.loop fuel (ntohl s) (ntohl e) start)).
        { intros (st & Hst & Hne).
          destruct (IpIterFacts.iter_loop_sound fuel (ntohl s) (ntohl e)
                      start) as [[H | H] _];
            rewrite H in Hst; [| discriminate].
          injection Hst as <-. apply Hne. reflexivity. }
        repeat split; try discriminate; try (intros; contradiction).
        intros [H | [H | (s' & e' & H1 & H2 & H3)]]; try discriminate.
        injection H1 as <-. injection H2 as <-. lia.
    + repeat split; try discriminate; try reflexivity;
        try (intros; apply F).
      intros _. right. left. reflexivity.
  - repeat split; try reflexivity; try (intros; apply F);
      try (intros; contradiction).
    intros _. left. reflexivity.
Qed.

Lemma ip_iter_failure_causes_witness :
  stderr (snd (ip_iter 3 "10.0.0" "x")) = IpIter.looks_bad "1" "10.0.0"
  /\ stderr (snd (ip_iter 3 "10.0.0.1" "x")) = IpIter.looks_bad "2" "x".
Proof.
  destruct (ip_iter_failure_causes 3 "10.0.0" "x") as (_ & _ & A & _).
  destruct (ip_iter_failure_causes 3 "10.0.0.1" "x") as (_ & _ & _ & B).
  split; [apply A; reflexivity | apply B; [discriminate | reflexivity]].
Defined.

(** ** Both programs *)

(** X6: the usage message is the answer to a wrong number of arguments and
    to nothing else: [ip_iter] exits 1 with it, and an empty standard
    output, exactly when [argc] is not 3, and [ip_sub] exactly when [argc]
    is not 4, whatever the arguments are. *)
Theorem usage_iff_wrong_argument_count fuel argv :
  (IpIter.main fuel argv = (Exit 1, mk_streams EmptyString IpIter.usage)
   <-> List.length argv <> 3%nat)
  /\ (IpSub.main fuel argv = (Exit 1, mk_streams EmptyString IpSub.usage)
      <-> List.length argv <> 4%nat).
Proof.
  split.
  - destruct argv as [| p [| a1 [| a2 [| ? ?]]]];
      try (split; [intros _; simpl; lia | reflexivity]).
    split; [| simpl; lia]. intros H. exfalso.
    apply (f_equal (fun r => stderr (snd r))) in H. revert H.
    unfold IpIter.main.
    destruct (inet_pton a1) as [s |]; [| discriminate].
    destruct (inet_pton a2) as [e |]; [| discriminate].
    cbv zeta. destruct (ntohl s >? ntohl e); [discriminate |].
    destruct (IpIterFacts.iter_loop_sound fuel (ntohl s) (ntohl e) start)
      as [_ He].
    rewrite He. discriminate.
  - destruct argv as [| p [| a1 [| a2 [| a3 [| ? ?]]]]];
      try (split; [intros _; simpl; lia | reflexivity]).
    split; [| simpl; lia]. intros H. exfalso.
    apply (f_equal (fun r => stderr (snd r))) in H. revert H.
    unfold IpSub.main.
    destruct (inet_pton a1) as [base |]; [| discriminate].
    cbv zeta. destruct ((atoi a2 <? 8) || (atoi a2 >=? 32));
      [discriminate |].
    destruct (negb (Z.land (s32 (ntohl base)) (IpSub.subnet_size (atoi a2))
                    =? 0)); [discriminate |].
    destruct (IpSubFacts.sub_loop_sound fuel 0 (atoi a3) (s32 (ntohl base))
                (atoi a2) start) as [_ He].
    rewrite He. discriminate.
Qed.

Lemma usage_iff_wrong_argument_count_witness :
  IpIter.main 0 ["ip_iter"; "10.0.0.1"]
  = (Exit 1, mk_streams EmptyString IpIter.usage)
  /\ IpSub.main 0 ["ip_sub"; "10.0.0.0"; "24"; "1"; "extra"]
     = (Exit 1, mk_streams EmptyString IpSub.usage).
Proof.
  destruct (usage_iff_wrong_argument_count 0 ["ip_iter"; "10.0.0.1"])
    as [A _].
  destruct (usage_iff_wrong_argument_count 0
              ["ip_sub"; "10.0.0.0"; "24"; "1"; "extra"]) as [_ B].
  split; [apply A | apply B]; simpl; lia.
Defined.

(** X7: the only exit statuses are 0 and 1, and in both programs a run
    has written on standard error exactly when it has exited with status 1;
    a run that exits 0, or is still in its loop, has written nothing
    there. *)
Theorem diagnostics_iff_exit_1 fuel argv :
  (fst (IpIter.main fuel argv) = Exit 0
   \/ fst (IpIter.main fuel argv) = Exit 1
   \/ fst (IpIter.main fuel argv) = OutOfFuel)
  /\ (fst (IpIter.main fuel argv) = Exit 1
      <-> stderr (snd (IpIter.main fuel argv)) <> EmptyString)
  /\ (fst (IpSub.main fuel argv) = Exit 0
      \/ fst (IpSub.main fuel argv) = Exit 1
      \/ fst (IpSub.main fuel argv) = OutOfFuel)
  /\ (fst (IpSub.main fuel argv) = Exit 1
      <-> stderr (snd (IpSub.main fuel argv)) <> EmptyString).
Proof.
  assert (Iter :
    (fst (IpIter.main fuel argv) = Exit 0
     \/ fst (IpIter.main fuel argv) = Exit 1
     \/ fst (IpIter.main fuel argv) = OutOfFuel)
    /\ (fst (IpIter.main fuel argv) = Exit 1
        <-> stderr (snd (IpIter.main fuel argv)) <> EmptyString)).
  { destruct (IpIter.validated argv) eqn:V.
    - destruct (IpIterFacts.iter_main_accepts fuel argv V)
        as (p & a1 & a2 & s & e & _ & _ & _ & _ & Hm).
      rewrite Hm.
      destruct (IpIterFacts.iter_loop_sound fuel (ntohl s) (ntohl e) start)
        as [Ho He].
      rewrite He. split; [tauto |].
      split; [| intros H; exfalso; apply H; reflexivity].
      intros H. destruct Ho as [Ho | Ho]; rewrite Ho in H; discriminate.
    - destruct (IpIterFacts.iter_main_rejects fuel argv V) as (H1 & _ & H3).
      split; [tauto | split; [intros _; exact H3 | intros _; exact H1]]. }
  assert (Sub :
    (fst (IpSub.main fuel argv) = Exit 0
     \/ fst (IpSub.main fuel argv) = Exit 1
     \/ fst (IpSub.main fuel argv) = OutOfFuel)
    /\ (fst (IpSub.main fuel argv) = Exit 1
        <-> stderr (snd (IpSub.main fuel argv)) <> EmptyString)).
  { destruct (IpSub.validated argv) eqn:V.
    - destruct (IpSubFacts.sub_main_accepts fuel argv V)
        as (p & a1 & a2 & a3 & base & _ & _ & _ & _ & Hm).
      rewrite Hm.
      destruct (IpSubFacts.sub_loop_sound fuel 0 (atoi a3)
                  (s32 (ntohl base)) (atoi a2) start) as [Ho He].
      rewrite He. split; [tauto |].
      split; [| intros H; exfalso; apply H; reflexivity].
      intros H. destruct Ho as [Ho | Ho]; rewrite Ho in H; discriminate.
    - destruct (IpSubFacts.sub_main_rejects fuel argv V) as (H1 & _ & H3).
      split; [tauto | split; [intros _; exact H3 | intros _; exact H1]]. }
  tauto.
Qed.

Lemma diagnostics_iff_exit_1_witness :
  stderr (snd (IpIter.main 1 ["ip_iter"; "10.0.0.5"; "10.0.0.3"]))
  <> EmptyString
  /\ fst (IpSub.main 1 ["ip_sub"; "10.0.0.0"; "7"; "1"]) = Exit 1.
Proof.
  destruct (diagnostics_iff_exit_1 1 ["ip_iter"; "10.0.0.5"; "10.0.0.3"])
    as (_ & A & _).
  destruct (diagnostics_iff_exit_1 1 ["ip_sub"; "10.0.0.0"; "7"; "1"])
    as (_ & _ & _ & B).
  split; [apply A; reflexivity | apply B; discriminate].
Defined.

(** ** Subnet enumerator *)

(** X8: [ip_sub] returns on every command line. Its loop counter is
    compared with [count], an [int], so [count + 1] loop tests are enough
    when [count] is positive and one is enough otherwise; the status is then
    0 or 1. *)
Theorem ip_sub_always_returns fuel argv :
  (Z.to_nat (atoi (nth 3 argv EmptyString)) < fuel)%nat ->
  fst (IpSub.main fuel argv) = Exit 0 \/ fst (IpSub.main fuel argv) = Exit 1.
Proof.
  intros Hfuel. destruct (IpSub.validated argv) eqn:V.
  - left.
    destruct (IpSubFacts.sub_main_accepts fuel argv V)
      as (p & a1 & a2 & a3 & base & -> & E1 & Hb & Ht & _).
    cbn [nth] in Hfuel.
    rewrite (IpSubFacts.enumerate fuel p a1 a2 a3 base E1 Hb Ht Hfuel).
    reflexivity.
  - right. apply (IpSubFacts.sub_main_rejects fuel argv V).
Qed.

Lemma ip_sub_always_returns_witness :
  fst (IpSub.main 3 ["ip_sub"; "10.0.0.0"; "24"; "2"]) = Exit 0
  \/ fst (IpSub.main 3 ["ip_sub"; "10.0.0.0"; "24"; "2"]) = Exit 1.
Proof.
  apply (ip_sub_always_returns 3 ["ip_sub"; "10.0.0.0"; "24"; "2"]).
  vm_compute. lia.
Defined.

(** X9: with a parseable address, [ip_sub] answers "bad subnet size", with
    status 1 and nothing on standard output, exactly when the [atoi] value
    of the bits argument is below 8 or at least 32, whatever the count and
    the alignment of the address. *)
Theorem ip_sub_bad_size_iff_out_of_range fuel a1 a2 a3 base :
  inet_pton a1 = Some base ->
  (ip_sub fuel a1 a2 a3 = (Exit 1, mk_streams EmptyString IpSub.bad_size)
   <-> atoi a2 < 8 \/ 32 <= atoi a2).
Proof.
  intros E1. unfold ip_sub, IpSub.main. rewrite E1. cbv zeta.
  destruct ((atoi a2 <? 8) || (atoi a2 >=? 32)) eqn:G.
  - split; [| reflexivity]. intros _.
    apply orb_true_iff in G. rewrite Z.ltb_lt, Z.geb_leb, Z.leb_le in G.
    exact G.
  - apply IpSubFacts.bits_guard in G. split; [| lia].
    intros H. exfalso.
    apply (f_equal (fun r => stderr (snd r))) in H. revert H.
    destruct (negb (Z.land (s32 (ntohl base)) (IpSub.subnet_size (atoi a2))
                    =? 0)); [discriminate |].
    destruct (IpSubFacts.sub_loop_sound fuel 0 (atoi a3) (s32 (ntohl base))
                (atoi a2) start) as [_ He].
    rewrite He. discriminate.
Qed.

Lemma ip_sub_bad_size_iff_out_of_range_witness :
  ip_sub 1 "10.0.0.0" "abc" "1"
  = (Exit 1, mk_streams EmptyString IpSub.bad_size)
  <-> atoi "abc" < 8 \/ 32 <= atoi "abc".
Proof.
  apply (ip_sub_bad_size_iff_out_of_range 1 "10.0.0.0" "abc" "1"
           (mk_in_addr 10 0 0 0)).
  reflexivity.
Defined.

(** X10: among the bases that are multiples of the subnet size, the test of
    line 45 refuses the odd ones. For [base = k * 2^(32-bits)], [ip_sub]
    exits non-zero exactly when [k] is odd, so every second subnet of a
    given size cannot be used as a starting point. *)
Theorem ip_sub_rejects_odd_multiples fuel a1 a2 a3 base k :
  inet_pton a1 = Some base -> 8 <= atoi a2 < 32 ->
  ntohl base = k * 2 ^ (32 - atoi a2) ->
  (failed (ip_sub fuel a1 a2 a3) <-> Z.odd k = true).
Proof.
  intros E1 Hb Hk. unfold ip_sub.
  rewrite (IpSubFacts.sub_failed_iff_bit fuel "ip_sub" a1 a2 a3 base E1 Hb).
  rewrite Hk, Z.mul_pow2_bits, Z.sub_diag, Z.bit0_odd by lia.
  reflexivity.
Qed.

Lemma ip_sub_rejects_odd_multiples_witness :
  failed (ip_sub 1 "10.0.1.0" "24" "1") <-> Z.odd 655361 = true.
Proof.
  apply (ip_sub_rejects_odd_multiples 1 "10.0.1.0" "24" "1"
           (mk_in_addr 10 0 1 0) 655361).
  - reflexivity.
  - by_eval.
  - reflexivity.
Defined.

(** X11: the loop keeps the offset of the base inside its subnet. Every
    line starts with the address of a 32-bit value congruent to the base
    modulo [2^(32-bits)], also after the values have wrapped; the other two
    addresses of the line are its two successors. *)
Theorem ip_sub_keeps_offset fuel a1 a2 a3 base i :
  inet_pton a1 = Some base -> 8 <= atoi a2 < 32 ->
  Z.land (ntohl base) (2 ^ (32 - atoi a2)) = 0 ->
  (Z.to_nat (atoi a3) < fuel)%nat -> 0 <= i < atoi a3 ->
  exists w,
    0 <= w <= UINT32_MAX
    /\ w mod 2 ^ (32 - atoi a2) = ntohl base mod 2 ^ (32 - atoi a2)
    /\ nth_error (lines_of (stdout (snd (ip_sub fuel a1 a2 a3)))) (Z.to_nat i)
       = Some (dotted (octets_of w) ++ " "
               ++ dotted (octets_of (u32 (w + 1))) ++ " "
               ++ dotted (octets_of (u32 (w + 2)))).
Proof.
  intros E1 Hb Ha Hfuel Hi.
  destruct (ip_sub_output fuel a1 a2 a3 base E1 Hb Ha Hfuel)
    as (_ & _ & _ & Hlines).
  exists (u32 (ntohl base + i * 2 ^ (32 - atoi a2))).
  split; [apply u32_range |]. split.
  - unfold u32, modulus.
    assert (Hsz : 0 < 2 ^ (32 - atoi a2)) by (apply Z.pow_pos_nonneg; lia).
    rewrite Z.mod_mod_divide.
    + apply Z.mod_add. lia.
    + exists (2 ^ atoi a2). rewrite <- Z.pow_add_r by lia.
      replace (atoi a2 + (32 - atoi a2)) with 32 by lia. reflexivity.
  - rewrite Hlines, nth_error_map, IpSubFacts.strides_nth by lia.
    rewrite Z2Nat.id by lia. cbn [option_map].
    unfold IpSub.subnet_line. rewrite !u32_add_l. reflexivity.
Qed.

Lemma ip_sub_keeps_offset_witness :
  exists w,
    0 <= w <= UINT32_MAX
    /\ w mod 2 ^ (32 - atoi "24") = ntohl (mk_in_addr 10 0 0 1)
                                      mod 2 ^ (32 - atoi "24")
    /\ nth_error (lines_of (stdout (snd (ip_sub 3 "10.0.0.1" "24" "2"))))
         (Z.to_nat 1)
       = Some (dotted (octets_of w) ++ " "
               ++ dotted (octets_of (u32 (w + 1))) ++ " "
               ++ dotted (octets_of (u32 (w + 2)))).
Proof.
  apply (ip_sub_keeps_offset 3 "10.0.0.1" "24" "2" (mk_in_addr 10 0 0 1) 1).
  - reflexivity.
  - by_eval.
  - reflexivity.
  - vm_compute. lia.
  - by_eval.
Defined.

(** X12: the third address of a line is [base + 2] whatever the subnet
    size. With 31 bits, where a subnet has two addresses, it is the base of
    the next subnet: each line ends with the address the next line starts
    with. *)
Theorem ip_sub_31_lines_overlap fuel a1 a2 a3 base i :
  inet_pton a1 = Some base -> atoi a2 = 31 ->
  Z.land (ntohl base) (2 ^ (32 - atoi a2)) = 0 ->
  (Z.to_nat (atoi a3) < fuel)%nat -> 0 <= i -> i + 1 < atoi a3 ->
  let v := ntohl base + i * 2 in
  nth_error (lines_of (stdout (snd (ip_sub fuel a1 a2 a3)))) (Z.to_nat i)
  = Some (dotted (octets_of (u32 v)) ++ " "
          ++ dotted (octets_of (u32 (v + 1))) ++ " "
          ++ dotted (octets_of (u32 (v + 2))))
  /\ nth_error (lines_of (stdout (snd (ip_sub fuel a1 a2 a3))))
       (Z.to_nat (i + 1))
     = Some (dotted (octets_of (u32 (v + 2))) ++ " "
             ++ dotted (octets_of (u32 (v + 3))) ++ " "
             ++ dotted (octets_of (u32 (v + 4)))).
Proof.
  intros E1 Hb Ha Hfuel Hi0 Hi1 v.
  assert (Hb' : 8 <= atoi a2 < 32) by lia.
  destruct (ip_sub_output fuel a1 a2 a3 base E1 Hb' Ha Hfuel)
    as (_ & _ & _ & Hlines).
  rewrite Hlines, !nth_error_map, !IpSubFacts.strides_nth by lia.
  rewrite !Z2Nat.id by lia. rewrite Hb.
  change (2 ^ (32 - 31)) with 2. cbn [option_map].
  unfold IpSub.subnet_line, v. split; [reflexivity |].
  replace (ntohl base + (i + 1) * 2) with (ntohl base + i * 2 + 2) by lia.
  replace (ntohl base + i * 2 + 2 + 1) with (ntohl base + i * 2 + 3) by lia.
  replace (ntohl base + i * 2 + 2 + 2) with (ntohl base + i * 2 + 4) by lia.
  reflexivity.
Qed.

Lemma ip_sub_31_lines_overlap_witness :
  nth_error (lines_of (stdout (snd (ip_sub 3 "10.0.0.0" "31" "2"))))
    (Z.to_nat (0 + 1))
  = Some (dotted (octets_of (u32 (ntohl (mk_in_addr 10 0 0 0) + 0 * 2 + 2)))
          ++ " "
          ++ dotted (octets_of (u32 (ntohl (mk_in_addr 10 0 0 0) + 0 * 2 + 3)))
          ++ " "
          ++ dotted
               (octets_of (u32 (ntohl (mk_in_addr 10 0 0 0) + 0 * 2 + 4)))).
Proof.
  apply (ip_sub_31_lines_overlap 3 "10.0.0.0" "31" "2"
           (mk_in_addr 10 0 0 0) 0).
  - reflexivity.
  - reflexivity.
  - reflexivity.
  - vm_compute. lia.
  - lia.
  - by_eval.
Defined.
